(** * DoorDash guest flow and feed walkers: a shallow embedding

    The development follows [Now_on_doordash.py] (the optimized flow, the
    section-cursor search and the store extraction) and the guest flow of
    [doordash_guest_flow.py].

    Conventions of the embedding.
    - A parsed JSON document is a value of [json]; Python's [None] is
      [JNull].  A Python [dict] is an association list in insertion order
      ([wf_json] says that its keys are distinct, as they are in every dict).
    - A [str] is the sequence of its code points, restricted to
      U+0000..U+00FF: one [ascii] per code point.
    - An operation that can raise returns a [result]; the exception classes
      are those of [exn].  [Unmodelled] is not a Python exception: it marks
      an input on which the model of a library call says nothing (a float
      literal, a code point above U+00FF), and no handler catches it.
    - The interpreter's recursion limit, the files written by the flow and
      the request envelope (headers, tracing identifiers, the random guest
      password) are outside the model. *)

From Stdlib Require Import SpecFloat ZArith Ascii.
From stdpp Require Import gmap strings list.

Open Scope string_scope.
Open Scope list_scope.

(** ** Exceptions and the error monad *)

Inductive exn :=
| AttributeError
| TypeError
| KeyError
| IndexError
| ValueError
| UnicodeDecodeError
| JSONDecodeError
| RequestError (msg : string)
| Unmodelled.

Inductive result (A : Type) :=
| Ok (a : A)
| Raise (e : exn).
Arguments Ok {A} a.
Arguments Raise {A} e.

#[global] Instance result_ret : MRet result := λ A, Ok.

#[global] Instance result_bind : MBind result := λ A B f m,
  match m with
  | Ok a => f a
  | Raise e => Raise e
  end.

Definition raises {A} (m : result A) : bool :=
  match m with Ok _ => false | Raise _ => true end.

Ltac unfold_bind := unfold mbind, result_bind, option_bind in *.

(** ** Documents *)

#[warnings="-register-all"]
Inductive json :=
| JNull
| JBool (b : bool)
| JInt (n : Z)
| JFloat (f : spec_float)
| JStr (s : string)
| JArr (xs : list json)
| JObj (kvs : list (string * json)).

(** Induction with the hypotheses for the elements of a sequence and the
    values of a mapping. *)
Fixpoint json_tree_ind (P : json → Prop)
    (Hnull : P JNull) (Hbool : ∀ b, P (JBool b)) (Hint : ∀ n, P (JInt n))
    (Hfloat : ∀ f, P (JFloat f)) (Hstr : ∀ s, P (JStr s))
    (Harr : ∀ xs, Forall P xs → P (JArr xs))
    (Hobj : ∀ kvs, Forall (λ kv, P kv.2) kvs → P (JObj kvs))
    (j : json) {struct j} : P j :=
  let rec := json_tree_ind P Hnull Hbool Hint Hfloat Hstr Harr Hobj in
  match j with
  | JNull => Hnull
  | JBool b => Hbool b
  | JInt n => Hint n
  | JFloat f => Hfloat f
  | JStr s => Hstr s
  | JArr xs =>
      Harr xs ((fix all (l : list json) : Forall P l :=
                  match l with
                  | [] => Forall_nil_2 P
                  | x :: l' => Forall_cons_2 P x l' (rec x) (all l')
                  end) xs)
  | JObj kvs =>
      Hobj kvs ((fix all (l : list (string * json)) : Forall (λ kv, P kv.2) l :=
                   match l with
                   | [] => Forall_nil_2 _
                   | kv :: l' => Forall_cons_2 _ kv l' (rec kv.2) (all l')
                   end) kvs)
  end.

(** [d[k]] on a dict / [k in d]: the first entry under the key (the only one
    in a dict). *)
Fixpoint dict_get (kvs : list (string * json)) (k : string) : option json :=
  match kvs with
  | [] => None
  | (k', v) :: rest => if String.eqb k' k then Some v else dict_get rest k
  end.

Definition dict_has (kvs : list (string * json)) (k : string) : bool :=
  match dict_get kvs k with Some _ => true | None => false end.

(** Distinct keys at every mapping node. *)
Fixpoint wf_json (j : json) : bool :=
  match j with
  | JArr xs => forallb wf_json xs
  | JObj kvs =>
      bool_decide (NoDup (kvs.*1))
      && (fix vals (l : list (string * json)) : bool :=
            match l with
            | [] => true
            | kv :: l' => wf_json kv.2 && vals l'
            end) kvs
  | _ => true
  end.

(** ** Strings as Python sees them *)

Definition code (c : ascii) : nat := nat_of_ascii c.

(** [str.isspace] on one code point below 256. *)
Definition is_space (c : ascii) : bool :=
  let n := code c in
  (((9 <=? n) && (n <=? 13)) || ((28 <=? n) && (n <=? 32))
  || (n =? 133) || (n =? 160))%nat.

Fixpoint lstrip (s : string) : string :=
  match s with
  | "" => ""
  | String c s' => if is_space c then lstrip s' else s
  end.

Fixpoint rstrip (s : string) : string :=
  match s with
  | "" => ""
  | String c s' =>
      match rstrip s' with
      | "" => if is_space c then "" else String c ""
      | r => String c r
      end
  end.

(** [s.strip()] *)
Definition strip (s : string) : string := lstrip (rstrip s).

(** [str.lower] on one code point below 256: A-Z and the Latin-1 capitals. *)
Definition lower_char (c : ascii) : ascii :=
  let n := code c in
  if (((65 <=? n) && (n <=? 90)) || ((192 <=? n) && (n <=? 214))
      || ((216 <=? n) && (n <=? 222)))%nat
  then ascii_of_nat (n + 32) else c.

Fixpoint lower (s : string) : string :=
  match s with
  | "" => ""
  | String c s' => String (lower_char c) (lower s')
  end.

(** [s.startswith(p)] *)
Definition startswith (s p : string) : bool := String.prefix p s.

(** [p in s] for two strings. *)
Fixpoint contains (p s : string) : bool :=
  String.prefix p s
  || match s with
     | "" => false
     | String _ s' => contains p s'
     end.

(** [s[n:]] *)
Fixpoint drop_chars (n : nat) (s : string) : string :=
  match n, s with
  | O, _ => s
  | S n', String _ s' => drop_chars n' s'
  | S _, "" => ""
  end.

(** [s.endswith('/')] *)
Fixpoint ends_with_slash (s : string) : bool :=
  match s with
  | "" => false
  | String c "" => Ascii.eqb c "/"
  | String _ s' => ends_with_slash s'
  end.

(** [s[:-1]] *)
Fixpoint drop_last (s : string) : string :=
  match s with
  | "" => ""
  | String _ "" => ""
  | String c s' => String c (drop_last s')
  end.

Definition nonempty (s : string) : bool :=
  match s with "" => false | _ => true end.

(** Decimal rendering of an index, as an f-string does it. *)
Definition digit (n : nat) : ascii := ascii_of_nat (48 + n).

Fixpoint decimal_fuel (fuel n : nat) (acc : string) : string :=
  match fuel with
  | O => acc
  | S fuel' =>
      let acc' := String (digit (n mod 10)) acc in
      if (n <? 10)%nat then acc' else decimal_fuel fuel' (n / 10) acc'
  end.

Definition decimal (n : nat) : string := decimal_fuel (S n) n "".

(** ** Python operations on document values *)

(** Truth value of an object. *)
Definition truthy (v : json) : bool :=
  match v with
  | JNull => false
  | JBool b => b
  | JInt n => negb (n =? 0)%Z
  | JFloat (S754_zero _) => false
  | JFloat _ => true
  | JStr s => nonempty s
  | JArr xs => match xs with [] => false | _ => true end
  | JObj kvs => match kvs with [] => false | _ => true end
  end.

(** [isinstance(v, (dict, list))] *)
Definition is_container (v : json) : bool :=
  match v with JArr _ | JObj _ => true | _ => false end.

(** A list element equal to the string [k]. *)
Definition is_str (k : string) (v : json) : bool :=
  match v with JStr s => String.eqb s k | _ => false end.

(** [k in v] for a string literal [k]. *)
Definition py_in (k : string) (v : json) : result bool :=
  match v with
  | JObj kvs => Ok (dict_has kvs k)
  | JArr xs => Ok (existsb (is_str k) xs)
  | JStr s => Ok (contains k s)
  | _ => Raise TypeError
  end.

(** [v[k]] for a string literal [k]. *)
Definition py_getitem (v : json) (k : string) : result json :=
  match v with
  | JObj kvs =>
      match dict_get kvs k with
      | Some x => Ok x
      | None => Raise KeyError
      end
  | _ => Raise TypeError
  end.

(** [v.get(k, dflt)] *)
Definition py_get (v : json) (k : string) (dflt : json) : result json :=
  match v with
  | JObj kvs =>
      match dict_get kvs k with
      | Some x => Ok x
      | None => Ok dflt
      end
  | _ => Raise AttributeError
  end.

(** [v.strip()] *)
Definition py_strip (v : json) : result string :=
  match v with
  | JStr s => Ok (strip s)
  | _ => Raise AttributeError
  end.

(** [v.startswith(p)] *)
Definition py_startswith (v : json) (p : string) : result bool :=
  match v with
  | JStr s => Ok (startswith s p)
  | _ => Raise AttributeError
  end.

(** ** Section-cursor search ([find_now_on_doordash_cursor]) *)

(** [uri[11:]] with one trailing slash removed. *)
Definition cursor_of_uri (uri : string) : string :=
  let cursor := drop_chars 11 uri in
  if ends_with_slash cursor then drop_last cursor else cursor.

(** The test made at a dict before its members are searched: [Some cursor]
    when the [return cursor] statement is reached. *)
Definition node_cursor (item : list (string * json)) : result (option string) :=
  match dict_get item "text" with
  | Some (JObj text) =>
      title ← py_strip (default (JStr "") (dict_get text "title"));
      if nonempty title && contains "now on doordash" (lower title) then
        match dict_get item "events" with
        | Some events =>
            has_click ← py_in "click" events;
            if has_click : bool then
              click ← py_getitem events "click";
              click_data ← py_get click "data" (JObj []);
              has_uri ← py_in "uri" click_data;
              if has_uri : bool then
                uri ← py_getitem click_data "uri";
                is_feed ← py_startswith uri "facet_feed/";
                if is_feed : bool then
                  match uri with
                  | JStr u => Ok (Some (cursor_of_uri u))
                  | _ => Raise AttributeError
                  end
                else Ok None
              else Ok None
            else Ok None
        | None => Ok None
        end
      else Ok None
  | _ => Ok None
  end.

(** [if result:] on a search result. *)
Definition found (r : option string) : bool :=
  match r with Some c => nonempty c | None => false end.

Fixpoint search_for_now_on_doordash (item : json) : result (option string) :=
  match item with
  | JObj kvs =>
      here ← node_cursor kvs;
      match here with
      | Some cursor => Ok (Some cursor)
      | None =>
          (fix items (l : list (string * json)) : result (option string) :=
             match l with
             | [] => Ok None
             | (_, value) :: l' =>
                 if is_container value then
                   r ← search_for_now_on_doordash value;
                   if found r then Ok r else items l'
                 else items l'
             end) kvs
      end
  | JArr xs =>
      (fix elems (l : list json) : result (option string) :=
         match l with
         | [] => Ok None
         | sub_item :: l' =>
             r ← search_for_now_on_doordash sub_item;
             if found r then Ok r else elems l'
         end) xs
  | _ => Ok None
  end.

Definition find_now_on_doordash_cursor (homepage_data : json)
    : result (option string) :=
  cursor ← search_for_now_on_doordash homepage_data;
  if found cursor then Ok cursor else Ok None.

(** ** The search as the specification words it *)

(** Mapping nodes of a document, in depth-first document order. *)
Fixpoint mapping_nodes (j : json) : list (list (string * json)) :=
  match j with
  | JObj kvs =>
      kvs :: (fix vals (l : list (string * json)) :=
                match l with
                | [] => []
                | kv :: l' => mapping_nodes kv.2 ++ vals l'
                end) kvs
  | JArr xs =>
      (fix elems (l : list json) :=
         match l with
         | [] => []
         | x :: l' => mapping_nodes x ++ elems l'
         end) xs
  | _ => []
  end.

(** Defensive access to a member of a mapping. *)
Definition field (v : json) (k : string) : option json :=
  match v with JObj kvs => dict_get kvs k | _ => None end.

Definition title_matches (node : list (string * json)) : bool :=
  match dict_get node "text" with
  | Some (JObj text) =>
      match dict_get text "title" with
      | Some (JStr t) => contains "now on doordash" (lower (strip t))
      | _ => false
      end
  | _ => false
  end.

Definition click_uri (node : list (string * json)) : option string :=
  events ← dict_get node "events";
  click ← field events "click";
  data ← field click "data";
  uri ← field data "uri";
  match uri with JStr u => Some u | _ => None end.

Definition feed_prefix : string := "facet_feed/".

Definition token_of_uri (uri : string) : string :=
  let rest := drop_chars (String.length feed_prefix) uri in
  if ends_with_slash rest then drop_last rest else rest.

Definition section_token (node : list (string * json)) : option string :=
  if title_matches node then
    uri ← click_uri node;
    if startswith uri feed_prefix then Some (token_of_uri uri) else None
  else None.

Fixpoint first_token (nodes : list (list (string * json))) : option string :=
  match nodes with
  | [] => None
  | node :: rest =>
      match section_token node with
      | Some t => Some t
      | None => first_token rest
      end
  end.

Definition findToken (doc : json) : option string :=
  first_token (mapping_nodes doc).

Definition search_items : list (string * json) → result (option string) :=
  fix items (l : list (string * json)) : result (option string) :=
    match l with
    | [] => Ok None
    | (_, value) :: l' =>
        if is_container value then
          r ← search_for_now_on_doordash value;
          if found r then Ok r else items l'
        else items l'
    end.

Definition search_elems : list json → result (option string) :=
  fix elems (l : list json) : result (option string) :=
    match l with
    | [] => Ok None
    | sub_item :: l' =>
        r ← search_for_now_on_doordash sub_item;
        if found r then Ok r else elems l'
    end.

Definition nodes_of_values : list (string * json) → list (list (string * json)) :=
  fix vals (l : list (string * json)) :=
    match l with
    | [] => []
    | kv :: l' => mapping_nodes kv.2 ++ vals l'
    end.

Definition nodes_of_elems : list json → list (list (string * json)) :=
  fix elems (l : list json) :=
    match l with
    | [] => []
    | x :: l' => mapping_nodes x ++ elems l'
    end.

(** A node is well typed when its own test raises nothing, and proper when
    its token, if any, is not the empty string. *)
Definition node_typed (node : list (string * json)) : Prop :=
  raises (node_cursor node) = false.

Definition node_proper (node : list (string * json)) : Prop :=
  section_token node ≠ Some "".

#[global] Instance node_typed_dec node : Decision (node_typed node).
Proof. unfold node_typed. apply _. Defined.

#[global] Instance node_proper_dec node : Decision (node_proper node).
Proof. unfold node_proper. apply _. Defined.

(** The first testable property, as the specification states it. *)
Definition first_match_property (doc : json) : Prop :=
  find_now_on_doordash_cursor doc = Ok (findToken doc).


(** ** Cursor encoding: [json.dumps], [str.encode], [base64] and back *)

Definition dquote : ascii := ascii_of_nat 34.
Definition backslash : ascii := ascii_of_nat 92.

Definition hex_digit (n : nat) : ascii :=
  if (n <? 10)%nat then ascii_of_nat (48 + n) else ascii_of_nat (87 + n).

(** [ESCAPE_ASCII] of the json encoder, for one code point below 256. *)
Definition escape_char (c : ascii) : string :=
  let n := code c in
  if (n =? 34)%nat then String backslash (String dquote "")
  else if (n =? 92)%nat then String backslash (String backslash "")
  else if (n =? 10)%nat then String backslash "n"
  else if (n =? 13)%nat then String backslash "r"
  else if (n =? 9)%nat then String backslash "t"
  else if (n =? 8)%nat then String backslash "b"
  else if (n =? 12)%nat then String backslash "f"
  else if ((32 <=? n) && (n <=? 126))%nat then String c ""
  else String backslash
         (String "u" (String "0" (String "0"
            (String (hex_digit (n / 16)) (String (hex_digit (n mod 16)) ""))))).

Fixpoint escape (s : string) : string :=
  match s with
  | "" => ""
  | String c s' => escape_char c +:+ escape s'
  end.

Definition dumps_str (s : string) : string :=
  String dquote (escape s) +:+ String dquote "".

Fixpoint decimal_N (fuel : nat) (n : N) (acc : string) : string :=
  match fuel with
  | O => acc
  | S fuel' =>
      let acc' := String (digit (N.to_nat (n mod 10))) acc in
      if (n <? 10)%N then acc' else decimal_N fuel' (n / 10) acc'
  end.

Definition dumps_int (n : Z) : string :=
  match n with
  | Z0 => "0"
  | Zpos p => decimal_N (S (N.size_nat (Npos p))) (Npos p) ""
  | Zneg p => "-" +:+ decimal_N (S (N.size_nat (Npos p))) (Npos p) ""
  end.

(** [json.dumps(v)] with the default separators; a float has no rendering
    in the model. *)
Fixpoint json_dumps (v : json) : result string :=
  match v with
  | JNull => Ok "null"
  | JBool true => Ok "true"
  | JBool false => Ok "false"
  | JInt n => Ok (dumps_int n)
  | JFloat _ => Raise Unmodelled
  | JStr s => Ok (dumps_str s)
  | JArr xs =>
      body ← (fix elems (l : list json) : result string :=
                match l with
                | [] => Ok ""
                | [x] => json_dumps x
                | x :: l' =>
                    sx ← json_dumps x; sl ← elems l'; Ok (sx +:+ ", " +:+ sl)
                end) xs;
      Ok ("[" +:+ body +:+ "]")
  | JObj kvs =>
      body ← (fix items (l : list (string * json)) : result string :=
                match l with
                | [] => Ok ""
                | [(k, x)] =>
                    sx ← json_dumps x; Ok (dumps_str k +:+ ": " +:+ sx)
                | (k, x) :: l' =>
                    sx ← json_dumps x; sl ← items l';
                    Ok (dumps_str k +:+ ": " +:+ sx +:+ ", " +:+ sl)
                end) kvs;
      Ok ("{" +:+ body +:+ "}")
  end.

(** [s.encode()]: UTF-8 of code points below 256; a byte is an [ascii]. *)
Fixpoint utf8_encode (s : string) : string :=
  match s with
  | "" => ""
  | String c s' =>
      let n := code c in
      if (n <? 128)%nat then String c (utf8_encode s')
      else String (ascii_of_nat (192 + n / 64))
             (String (ascii_of_nat (128 + n mod 64)) (utf8_encode s'))
  end.

(** [b.decode()]: UTF-8 back to code points below 256. *)
Fixpoint utf8_decode (b : string) : result string :=
  match b with
  | "" => Ok ""
  | String c b' =>
      let n := code c in
      if (n <? 128)%nat then s ← utf8_decode b'; Ok (String c s)
      else if ((n =? 194) || (n =? 195))%nat then
        match b' with
        | String c2 b'' =>
            let n2 := code c2 in
            if ((128 <=? n2) && (n2 <? 192))%nat then
              s ← utf8_decode b'';
              Ok (String (ascii_of_nat ((n - 192) * 64 + (n2 - 128))) s)
            else Raise UnicodeDecodeError
        | "" => Raise UnicodeDecodeError
        end
      else if (n <? 194)%nat then Raise UnicodeDecodeError
      else Raise Unmodelled
  end.

Definition b64_char (n : N) : ascii :=
  if (n <? 26)%N then ascii_of_N (65 + n)
  else if (n <? 52)%N then ascii_of_N (71 + n)
  else if (n <? 62)%N then ascii_of_N (n - 4)
  else if (n =? 62)%N then "+"%char else "/"%char.

Definition byte (c : ascii) : N := N_of_ascii c.

(** [base64.b64encode(b)] *)
Fixpoint b64encode (b : string) : string :=
  match b with
  | "" => ""
  | String x "" =>
      let n := (byte x * 16)%N in
      String (b64_char (n / 64)) (String (b64_char (n mod 64)) "==")
  | String x (String y "") =>
      let n := ((byte x * 256 + byte y) * 4)%N in
      String (b64_char (n / 4096))
        (String (b64_char (n / 64 mod 64)) (String (b64_char (n mod 64)) "="))
  | String x (String y (String z rest)) =>
      let n := (byte x * 65536 + byte y * 256 + byte z)%N in
      String (b64_char (n / 262144))
        (String (b64_char (n / 4096 mod 64))
           (String (b64_char (n / 64 mod 64))
              (String (b64_char (n mod 64)) (b64encode rest))))
  end.

(** Value of a character of the base64 alphabet. *)
Definition b64_value (c : ascii) : option nat :=
  let n := code c in
  if ((65 <=? n) && (n <=? 90))%nat then Some (n - 65)%nat
  else if ((97 <=? n) && (n <=? 122))%nat then Some (n - 71)%nat
  else if ((48 <=? n) && (n <=? 57))%nat then Some (n + 4)%nat
  else if (n =? 43)%nat then Some 62%nat
  else if (n =? 47)%nat then Some 63%nat
  else None.

(** The non-strict decoder of [binascii.a2b_base64]: [quad_pos] counts the
    characters of the current group, [leftchar] holds the bits not yet
    written, [pads] the padding characters in a row. *)
Fixpoint a2b_base64 (s : string) (quad_pos leftchar pads : nat)
    : result string :=
  match s with
  | "" => if (quad_pos =? 0)%nat then Ok "" else Raise ValueError
  | String c s' =>
      if (code c =? 61)%nat then
        if (2 <=? quad_pos)%nat then
          if (4 <=? quad_pos + S pads)%nat then Ok ""
          else a2b_base64 s' quad_pos leftchar (S pads)
        else a2b_base64 s' quad_pos leftchar pads
      else
        match b64_value c with
        | None => a2b_base64 s' quad_pos leftchar pads
        | Some v =>
            match quad_pos with
            | 0 => a2b_base64 s' 1 v 0
            | 1 =>
                out ← a2b_base64 s' 2 (v mod 16) 0;
                Ok (String (ascii_of_nat (leftchar * 4 + v / 16)) out)
            | 2 =>
                out ← a2b_base64 s' 3 (v mod 4) 0;
                Ok (String (ascii_of_nat (leftchar * 16 + v / 4)) out)
            | _ =>
                out ← a2b_base64 s' 0 0 0;
                Ok (String (ascii_of_nat (leftchar * 64 + v)) out)
            end
        end
  end.

Fixpoint is_ascii_text (s : string) : bool :=
  match s with
  | "" => true
  | String c s' => (code c <? 128)%nat && is_ascii_text s'
  end.

(** [base64.b64decode(s)] for a [str] argument. *)
Definition b64decode (s : string) : result string :=
  if is_ascii_text s then a2b_base64 s 0 0 0 else Raise ValueError.

(** *** [json.loads] *)

Definition is_ws (c : ascii) : bool :=
  let n := code c in ((n =? 32) || (n =? 9) || (n =? 10) || (n =? 13))%nat.

Fixpoint skip_ws (s : string) : string :=
  match s with
  | "" => ""
  | String c s' => if is_ws c then skip_ws s' else s
  end.

Definition is_digit (c : ascii) : bool :=
  ((48 <=? code c) && (code c <=? 57))%nat.

Fixpoint scan_digits (s : string) (acc : Z) : Z * string :=
  match s with
  | "" => (acc, "")
  | String c s' =>
      if is_digit c
      then scan_digits s' (acc * 10 + Z.of_nat (code c - 48))%Z
      else (acc, s)
  end.

(** The text goes on as a fraction or an exponent. *)
Definition float_tail (s : string) : bool :=
  match s with
  | String c (String d rest) =>
      let n := code c in
      if (n =? 46)%nat then is_digit d
      else if ((n =? 101) || (n =? 69))%nat then
        is_digit d
        || (((code d =? 43) || (code d =? 45))%nat
            && match rest with String e _ => is_digit e | "" => false end)
      else false
  | _ => false
  end.

(** The integer part [0|[1-9]\d*] at the head of [s]. *)
Definition scan_int (s : string) : option (Z * string) :=
  match s with
  | String c s' =>
      if (code c =? 48)%nat then Some (0%Z, s')
      else if is_digit c then Some (scan_digits s 0%Z)
      else None
  | "" => None
  end.

Definition scan_number (s : string) : result (json * string) :=
  let '(negative, body) :=
    match s with
    | String c s' => if (code c =? 45)%nat then (true, s') else (false, s)
    | "" => (false, s)
    end in
  match scan_int body with
  | Some (n, rest) =>
      if float_tail rest then Raise Unmodelled
      else Ok (JInt (if negative then - n else n)%Z, rest)
  | None =>
      if String.prefix "NaN" s || String.prefix "Infinity" s
         || String.prefix "-Infinity" s
      then Raise Unmodelled else Raise JSONDecodeError
  end.

Definition hex_value (c : ascii) : option nat :=
  let n := code c in
  if ((48 <=? n) && (n <=? 57))%nat then Some (n - 48)%nat
  else if ((97 <=? n) && (n <=? 102))%nat then Some (n - 87)%nat
  else if ((65 <=? n) && (n <=? 70))%nat then Some (n - 55)%nat
  else None.

(** The characters of a string literal after its opening quote. *)
Fixpoint scan_string (s : string) : result (string * string) :=
  match s with
  | "" => Raise JSONDecodeError
  | String c rest =>
      let n := code c in
      if (n =? 34)%nat then Ok ("", rest)
      else if (n =? 92)%nat then
        match rest with
        | String e rest' =>
            let plain (x : nat) :=
              '(str, r) ← scan_string rest'; Ok (String (ascii_of_nat x) str, r) in
            let m := code e in
            if (m =? 34)%nat then plain 34%nat
            else if (m =? 92)%nat then plain 92%nat
            else if (m =? 47)%nat then plain 47%nat
            else if (m =? 98)%nat then plain 8%nat
            else if (m =? 102)%nat then plain 12%nat
            else if (m =? 110)%nat then plain 10%nat
            else if (m =? 114)%nat then plain 13%nat
            else if (m =? 116)%nat then plain 9%nat
            else if (m =? 117)%nat then
              match rest' with
              | String h1 (String h2 (String h3 (String h4 rest''))) =>
                  match hex_value h1, hex_value h2, hex_value h3, hex_value h4 with
                  | Some a, Some b, Some c', Some d =>
                      if ((a =? 0) && (b =? 0))%nat then
                        '(str, r) ← scan_string rest'';
                        Ok (String (ascii_of_nat (c' * 16 + d)) str, r)
                      else Raise Unmodelled
                  | _, _, _, _ => Raise JSONDecodeError
                  end
              | _ => Raise JSONDecodeError
              end
            else Raise JSONDecodeError
        | "" => Raise JSONDecodeError
        end
      else if (n <? 32)%nat then Raise JSONDecodeError
      else '(str, r) ← scan_string rest; Ok (String c str, r)
  end.

(** [dict(pairs)]: a repeated key keeps its place and takes the last value. *)
Fixpoint dict_set (kvs : list (string * json)) (k : string) (v : json)
    : list (string * json) :=
  match kvs with
  | [] => [(k, v)]
  | (k', v') :: rest =>
      if String.eqb k' k then (k', v) :: rest else (k', v') :: dict_set rest k v
  end.

(** The scanner.  [fuel] bounds the nesting of calls; running out of it is
    reported as [Unmodelled]. *)
Fixpoint scan_once (fuel : nat) (s : string) : result (json * string) :=
  match fuel with
  | O => Raise Unmodelled
  | S fuel' =>
      match s with
      | "" => Raise JSONDecodeError
      | String c rest =>
          let n := code c in
          if (n =? 34)%nat then '(str, r) ← scan_string rest; Ok (JStr str, r)
          else if (n =? 123)%nat then
            match skip_ws rest with
            | String c' r =>
                if (code c' =? 125)%nat then Ok (JObj [], r)
                else scan_members fuel' (skip_ws rest) []
            | "" => Raise JSONDecodeError
            end
          else if (n =? 91)%nat then
            match skip_ws rest with
            | String c' r =>
                if (code c' =? 93)%nat then Ok (JArr [], r)
                else scan_elements fuel' (skip_ws rest) []
            | "" => Raise JSONDecodeError
            end
          else if String.prefix "null" s then Ok (JNull, drop_chars 4 s)
          else if String.prefix "true" s then Ok (JBool true, drop_chars 4 s)
          else if String.prefix "false" s then Ok (JBool false, drop_chars 5 s)
          else scan_number s
      end
  end
with scan_elements (fuel : nat) (s : string) (acc : list json)
    : result (json * string) :=
  match fuel with
  | O => Raise Unmodelled
  | S fuel' =>
      '(v, r) ← scan_once fuel' s;
      match skip_ws r with
      | String c r' =>
          if (code c =? 93)%nat then Ok (JArr (acc ++ [v]), r')
          else if (code c =? 44)%nat
          then scan_elements fuel' (skip_ws r') (acc ++ [v])
          else Raise JSONDecodeError
      | "" => Raise JSONDecodeError
      end
  end
with scan_members (fuel : nat) (s : string) (acc : list (string * json))
    : result (json * string) :=
  match fuel with
  | O => Raise Unmodelled
  | S fuel' =>
      match s with
      | String q r0 =>
          if (code q =? 34)%nat then
            '(k, r1) ← scan_string r0;
            match skip_ws r1 with
            | String colon r2 =>
                if (code colon =? 58)%nat then
                  '(v, r3) ← scan_once fuel' (skip_ws r2);
                  match skip_ws r3 with
                  | String c r4 =>
                      if (code c =? 125)%nat then Ok (JObj (dict_set acc k v), r4)
                      else if (code c =? 44)%nat
                      then scan_members fuel' (skip_ws r4) (dict_set acc k v)
                      else Raise JSONDecodeError
                  | "" => Raise JSONDecodeError
                  end
                else Raise JSONDecodeError
            | "" => Raise JSONDecodeError
            end
          else Raise JSONDecodeError
      | "" => Raise JSONDecodeError
      end
  end.

(** [json.loads(s)] *)
Definition json_loads (s : string) : result json :=
  '(v, rest) ← scan_once (2 * String.length s + 2) (skip_ws s);
  match skip_ws rest with
  | "" => Ok v
  | _ => Raise JSONDecodeError
  end.

(** The fallback cursor of [step_15_content_feed], the same in both flows. *)
Definition default_cursor : json :=
  JObj [("offset", JInt 0);
        ("content_ids", JArr [JStr "10821511"; JStr "27460306"; JStr "33917167"]);
        ("request_parent_id", JStr "DEFAULT_HOMEPAGE");
        ("request_child_id", JStr "carousel.standard:store_carousel:eta");
        ("cross_vertical_page_type", JStr "DEFAULT_HOMEPAGE");
        ("page_stack_trace", JArr []);
        ("vertical_ids", JArr []);
        ("baseCursor", JObj [("page_id", JStr "eta");
                             ("page_type", JStr "STORE_CAROUSEL_LANDING");
                             ("cursor_version", JStr "FACET")])].

(** [base64.b64encode(json.dumps(cursor).encode()).decode()] *)
Definition encode_cursor (cursor : json) : result string :=
  cursor_json ← json_dumps cursor;
  Ok (b64encode (utf8_encode cursor_json)).

(** [json.loads(base64.b64decode(cursor_id).decode())] *)
Definition decode_cursor (cursor_id : string) : result json :=
  raw ← b64decode cursor_id;
  decoded ← utf8_decode raw;
  json_loads decoded.

(** ** Store extraction ([extract_stores_from_feed]) *)

(** The dict [store_info]: a key that was never assigned is [None]; a key
    assigned Python's [None] is [Some JNull]. *)
Record store_info := {
  name : option string;
  subtitle : option string;
  rating : option json;
  delivery_fee : option json;
  delivery_time : option json;
  store_id : option json;
  uri : option json;
  source : option string;
  path : option string
}.

Definition empty_info : store_info :=
  {| name := None; subtitle := None; rating := None; delivery_fee := None;
     delivery_time := None; store_id := None; uri := None;
     source := None; path := None |}.

(** Assignments [store_info[k] = v]. *)
Definition set_text (info : store_info) (n s : string) : store_info :=
  {| name := Some n; subtitle := Some s; rating := rating info;
     delivery_fee := delivery_fee info; delivery_time := delivery_time info;
     store_id := store_id info; uri := uri info;
     source := source info; path := path info |}.

Definition set_custom (info : store_info) (r f t : json) : store_info :=
  {| name := name info; subtitle := subtitle info; rating := Some r;
     delivery_fee := Some f; delivery_time := Some t;
     store_id := store_id info; uri := uri info;
     source := source info; path := path info |}.

Definition set_click (info : store_info) (i u : json) : store_info :=
  {| name := name info; subtitle := subtitle info; rating := rating info;
     delivery_fee := delivery_fee info; delivery_time := delivery_time info;
     store_id := Some i; uri := Some u;
     source := source info; path := path info |}.

Definition set_origin (info : store_info) (s p : string) : store_info :=
  {| name := name info; subtitle := subtitle info; rating := rating info;
     delivery_fee := delivery_fee info; delivery_time := delivery_time info;
     store_id := store_id info; uri := uri info;
     source := Some s; path := Some p |}.

(** [d.get(k)] on a dict, with Python's [None] as default. *)
Definition get_or_none (kvs : list (string * json)) (k : string) : json :=
  default JNull (dict_get kvs k).

(** The three blocks that fill [store_info] from a dict. *)
Definition basic_info (item : list (string * json)) (info : store_info)
    : result store_info :=
  match dict_get item "text" with
  | Some (JObj text_data) =>
      title ← py_strip (default (JStr "") (dict_get text_data "title"));
      sub ← py_strip (default (JStr "") (dict_get text_data "subtitle"));
      Ok (set_text info title sub)
  | _ => Ok info
  end.

Definition custom_info (item : list (string * json)) (info : store_info)
    : store_info :=
  match dict_get item "custom" with
  | Some (JObj custom_data) =>
      set_custom info (get_or_none custom_data "rating")
        (get_or_none custom_data "delivery_fee")
        (get_or_none custom_data "delivery_time")
  | _ => info
  end.

Definition click_info (item : list (string * json)) (info : store_info)
    : result store_info :=
  match dict_get item "events" with
  | Some events =>
      has_click ← py_in "click" events;
      if has_click : bool then
        click ← py_getitem events "click";
        click_data ← py_get click "data" (JObj []);
        sid ← py_get click_data "store_id" JNull;
        u ← py_get click_data "uri" JNull;
        Ok (set_click info sid u)
      else Ok info
  | None => Ok info
  end.

Definition assemble (item : list (string * json)) : result store_info :=
  info ← basic_info item empty_info;
  click_info item (custom_info item info).

(** [store_info.get('name') and len(store_info.get('name', '')) > 2] *)
Definition has_store_name (info : store_info) : bool :=
  match name info with
  | Some n => nonempty n && (2 <? String.length n)%nat
  | None => false
  end.

(** The statements of a dict node up to [stores.append]. *)
Definition visit (source_name : string) (item : list (string * json))
    (path : string) (stores : list store_info) : result (list store_info) :=
  info ← assemble item;
  if has_store_name info then
    Ok (stores ++ [set_origin info source_name path])
  else Ok stores.

Fixpoint extract_store_info (source_name : string) (item : json)
    (path : string) (stores : list store_info) {struct item}
    : result (list store_info) :=
  match item with
  | JObj kvs =>
      stores ← visit source_name kvs path stores;
      (fix items (l : list (string * json)) (stores : list store_info) :=
         match l with
         | [] => Ok stores
         | (key, value) :: l' =>
             if is_container value then
               stores ← extract_store_info source_name value
                          (path +:+ "." +:+ key) stores;
               items l' stores
             else items l' stores
         end) kvs stores
  | JArr xs =>
      (fix elems (l : list json) (i : nat) (stores : list store_info) :=
         match l with
         | [] => Ok stores
         | sub_item :: l' =>
             stores ← extract_store_info source_name sub_item
                        (path +:+ "[" +:+ decimal i +:+ "]") stores;
             elems l' (S i) stores
         end) xs 0%nat stores
  | _ => Ok stores
  end.

(** The key of the duplicate removal: [store.get('name', '').lower()]. *)
Definition name_key (store : store_info) : string :=
  lower (default "" (name store)).

(** One turn of the loop over [stores]. *)
Definition keep_first (st : list store_info * gset string) (store : store_info)
    : list store_info * gset string :=
  let '(unique_stores, seen_names) := st in
  let n := name_key store in
  if nonempty n && bool_decide (n ∉ seen_names)
  then (unique_stores ++ [store], {[n]} ∪ seen_names)
  else st.

Definition remove_duplicates (stores : list store_info) : list store_info :=
  (foldl keep_first ([], ∅) stores).1.

Definition extract_stores_from_feed (feed_data : json) (source_name : string)
    : result (list store_info) :=
  stores ← extract_store_info source_name feed_data "" [];
  Ok (remove_duplicates stores).

Definition extract_items (source_name path : string)
    : list (string * json) → list store_info → result (list store_info) :=
  fix items (l : list (string * json)) (stores : list store_info) :=
    match l with
    | [] => Ok stores
    | (key, value) :: l' =>
        if is_container value then
          stores ← extract_store_info source_name value
                     (path +:+ "." +:+ key) stores;
          items l' stores
        else items l' stores
    end.

Definition extract_elems (source_name path : string)
    : list json → nat → list store_info → result (list store_info) :=
  fix elems (l : list json) (i : nat) (stores : list store_info) :=
    match l with
    | [] => Ok stores
    | sub_item :: l' =>
        stores ← extract_store_info source_name sub_item
                   (path +:+ "[" +:+ decimal i +:+ "]") stores;
        elems l' (S i) stores
    end.

(** The duplicate removal by recursion on the candidates. *)
Fixpoint first_occurrences (seen : gset string) (stores : list store_info)
    : list store_info :=
  match stores with
  | [] => []
  | store :: rest =>
      let n := name_key store in
      if nonempty n && bool_decide (n ∉ seen)
      then store :: first_occurrences ({[n]} ∪ seen) rest
      else first_occurrences seen rest
  end.

(** A record that may be emitted: it has a name of three characters or more. *)
Definition named (store : store_info) : Prop :=
  ∃ n, name store = Some n ∧ (3 ≤ String.length n)%nat.

(** ** The remote service, the console and the session *)

(** A request of the flows, without its envelope. *)
Inductive request :=
| GetStatusOk
| PostCreateGuest
| PostExperiments
| PostRegisterDevice
| GetPrivacyConsents
| GetConsumer
| PatchLanguage
| GetAddresses
| GetAutocomplete (input : string)
| GetAddressDetails (place_id : json)
| PostValidateAddress (place_id : json)
| PostAddAddress (place_id : json)
| PostSetDefault (address_id : json)
| PatchSetDefault (address_id : json)
| GetHomepageFeed (lat lng : json)
| GetFeed (lat lng : json) (id : string).

(** [body] is what [response.json()] returns; [None] when it raises. *)
Record response := { status_code : Z; body : option json }.

Inductive reply :=
| Answer (r : response)
| Broken (msg : string).

(** The console, reduced to the lines that report a step or a failure: the
    banner of a step, a line printed with the cross mark, a line printed with
    the warning or the retry mark, and the line that prints a caught
    exception.  The text is the fixed part of the message. *)
Inductive line :=
| Banner (text : string)
| Cross (text : string)
| Caution (text : string)
| Caught (e : exn).

(** The attributes of a flow object that its steps assign. *)
Record session := {
  jwt_token : json;
  address_id : json;
  lat : json;
  lng : json
}.

Definition new_session : session :=
  {| jwt_token := JNull; address_id := JNull; lat := JNull; lng := JNull |}.

(** [len(v)] *)
Definition py_len (v : json) : result nat :=
  match v with
  | JStr s => Ok (String.length s)
  | JArr xs => Ok (length xs)
  | JObj kvs => Ok (length kvs)
  | _ => Raise TypeError
  end.

(** [v[0]] *)
Definition py_first (v : json) : result json :=
  match v with
  | JArr (x :: _) => Ok x
  | JArr [] => Raise IndexError
  | JStr (String c _) => Ok (JStr (String c ""))
  | JStr "" => Raise IndexError
  | JObj _ => Raise KeyError
  | _ => Raise TypeError
  end.

(** [v.keys()] *)
Definition py_keys (v : json) : result (list string) :=
  match v with
  | JObj kvs => Ok (kvs.*1)
  | _ => Raise AttributeError
  end.

(** [a in v and b in v[a]] *)
Definition has_nested (v : json) (a b : string) : result bool :=
  has_a ← py_in a v;
  if has_a : bool then inner ← py_getitem v a; py_in b inner else Ok false.

Definition json_of (r : response) : result json :=
  match body r with
  | Some v => Ok v
  | None => Raise JSONDecodeError
  end.

Definition is_200 (r : response) : bool := (status_code r =? 200)%Z.

(** The state of a run: the flow object, the remote service, what was
    printed and what was sent. *)
Record machine (World : Type) := {
  self : session;
  world : World;
  console : list line;
  sent : list request
}.
Arguments self {World} m.
Arguments world {World} m.
Arguments console {World} m.
Arguments sent {World} m.

Definition boot {World} (w : World) : machine World :=
  {| self := new_session; world := w; console := []; sent := [] |}.

Definition M (World A : Type) : Type :=
  machine World → result A * machine World.

#[global] Instance M_ret {World} : MRet (M World) := λ A a m, (Ok a, m).

#[global] Instance M_bind {World} : MBind (M World) := λ A B f c m,
  match c m with
  | (Ok a, m') => f a m'
  | (Raise e, m') => (Raise e, m')
  end.

Section Effects.
Context {World : Type} (remote : request → World → reply * World).

Definition lift {A} (r : result A) : M World A := λ m, (r, m).

(** [try: body  except Exception as e: handler e] *)
Definition try_except {A} (body : M World A) (handler : exn → M World A)
    : M World A := λ m,
  match body m with
  | (Raise Unmodelled, m') => (Raise Unmodelled, m')
  | (Raise e, m') => handler e m'
  | (Ok a, m') => (Ok a, m')
  end.

Definition say (l : line) : M World unit := λ m,
  (Ok tt, {| self := self m; world := world m;
             console := console m ++ [l]; sent := sent m |}).

Definition send (r : request) : M World response := λ m,
  let '(rep, w) := remote r (world m) in
  let m' := {| self := self m; world := w;
               console := console m; sent := sent m ++ [r] |} in
  match rep with
  | Answer resp => (Ok resp, m')
  | Broken msg => (Raise (RequestError msg), m')
  end.

Definition attr (f : session → json) : M World json := λ m,
  (Ok (f (self m)), m).

Definition assign (f : session → session) : M World unit := λ m,
  (Ok tt, {| self := f (self m); world := world m;
             console := console m; sent := sent m |}).

Definition set_jwt_token (v : json) : M World unit :=
  assign (λ s, {| jwt_token := v; address_id := address_id s;
                  lat := lat s; lng := lng s |}).

Definition set_address_id (v : json) : M World unit :=
  assign (λ s, {| jwt_token := jwt_token s; address_id := v;
                  lat := lat s; lng := lng s |}).

Definition set_lat (v : json) : M World unit :=
  assign (λ s, {| jwt_token := jwt_token s; address_id := address_id s;
                  lat := v; lng := lng s |}).

Definition set_lng (v : json) : M World unit :=
  assign (λ s, {| jwt_token := jwt_token s; address_id := address_id s;
                  lat := lat s; lng := v |}).

(** The common ending [except Exception as e: print(...); return r]. *)
Definition or_else {A} (body : M World A) (r : A) : M World A :=
  try_except body (λ e, say (Caught e);; mret r).

(** A step that only looks at the status: [return status_code == 200]. *)
Definition status_is_200 (r : request) : M World bool :=
  response ← send r; mret (is_200 response).
End Effects.

(** *** [OptimizedDoorDashFlow] and [run_optimized_flow] *)

Module Optimized.
Section Steps.
Context {World : Type} (remote : request → World → reply * World).
#[local] Abbreviation step := (M World).
#[local] Abbreviation send := (send remote).

Definition step_1_health_check : step bool :=
  say (Banner "Step 1: Health Check");;
  try_except (status_is_200 remote GetStatusOk)
    (λ e, say (Caught e);; mret true).

Definition step_2_create_guest : step bool :=
  say (Banner "Step 2: Create Guest User (CRITICAL)");;
  or_else
    (response ← send PostCreateGuest;
     if is_200 response then
       data ← lift (json_of response);
       has_token ← lift (has_nested data "auth_token" "token");
       if has_token : bool then
         auth_token ← lift (py_getitem data "auth_token");
         token ← lift (py_getitem auth_token "token");
         set_jwt_token token;;
         mret true
       else
         say (Cross "No token in response");;
         mret false
     else
       say (Cross "Failed");;
       mret false)
    false.

Definition step_8_get_addresses : step bool :=
  say (Banner "Step 8: Get Addresses");;
  jwt ← attr jwt_token;
  if negb (truthy jwt) then
    say (Cross "No JWT token");; mret false
  else or_else (status_is_200 remote GetAddresses) false.

Definition step_9_address_autocomplete (address_query : string) : step json :=
  say (Banner ("Step 9: Address Autocomplete for '" +:+ address_query +:+ "'"));;
  jwt ← attr jwt_token;
  if negb (truthy jwt) then
    say (Cross "No JWT token");; mret JNull
  else
    or_else
      (response ← send (GetAutocomplete address_query);
       if is_200 response then
         data ← lift (json_of response);
         some ← (if truthy data
                 then n ← lift (py_len data); mret (0 <? n)%nat
                 else mret false);
         if some : bool then
           first_address ← lift (py_first data);
           place_id ← lift (py_get first_address "google_place_id" JNull);
           if truthy place_id then mret place_id
           else
             say (Cross "No google_place_id in first result");;
             mret JNull
         else
           say (Cross "No address suggestions found");;
           mret JNull
       else
         say (Cross "Autocomplete failed");;
         mret JNull)
      JNull.

Definition is_none (v : json) : bool :=
  match v with JNull => true | _ => false end.

Definition step_10_address_details (place_id : json) : step bool :=
  say (Banner "Step 10: Get Address Details & Coordinates");;
  jwt ← attr jwt_token;
  if negb (truthy jwt) then
    say (Cross "No JWT token");; mret false
  else
    or_else
      (response ← send (GetAddressDetails place_id);
       if is_200 response then
         data ← lift (json_of response);
         la ← lift (py_get data "lat" JNull);
         set_lat la;;
         lo ← lift (py_get data "lng" JNull);
         set_lng lo;;
         lift (py_get data "printable_address" JNull);;
         if is_none la || is_none lo then
           say (Cross "Invalid coordinates in response");;
           mret false
         else mret true
       else
         say (Cross "Failed to get details");;
         mret false)
      false.

Definition step_11_validate_address (place_id : json) : step bool :=
  say (Banner "Step 11: Validate Address");;
  jwt ← attr jwt_token;
  if negb (truthy jwt) then
    say (Cross "No JWT token");; mret false
  else or_else (status_is_200 remote (PostValidateAddress place_id)) false.

Definition step_12_add_address (place_id : json) : step bool :=
  say (Banner "Step 12: Add Address to Profile");;
  jwt ← attr jwt_token;
  if negb (truthy jwt) then
    say (Cross "No JWT token");; mret false
  else
    or_else
      (response ← send (PostAddAddress place_id);
       if is_200 response then
         data ← lift (json_of response);
         has_id ← lift (py_in "id" data);
         if has_id : bool then
           id ← lift (py_getitem data "id");
           set_address_id id;;
           lift (py_get data "printable_address" (JStr "N/A"));;
           mret true
         else
           say (Cross "No address ID in response");;
           mret false
       else
         say (Cross "Failed to add address");;
         mret false)
      false.

Definition step_13_set_default_address : step bool :=
  say (Banner "Step 13: Set Default Address");;
  jwt ← attr jwt_token;
  aid ← attr address_id;
  if negb (truthy jwt) || negb (truthy aid) then
    say (Cross "Missing JWT token or address ID");; mret false
  else
    or_else
      (response ← send (PostSetDefault aid);
       if is_200 response then mret true
       else if (status_code response =? 404)%Z then
         say (Caution "Address not found (404) - might already be set or invalid ID");;
         say (Caution "Continuing anyway as we have coordinates...");;
         mret true
       else
         say (Cross "Failed to set default");;
         mret true)
      true.

Definition step_14_homepage_feed : step json :=
  say (Banner "Step 14: Homepage Feed");;
  la ← attr lat;
  lo ← attr lng;
  if negb (truthy la) || negb (truthy lo) then
    say (Cross "No coordinates available");; mret JNull
  else
    or_else
      (response ← send (GetHomepageFeed la lo);
       if is_200 response then lift (json_of response)
       else
         say (Cross "Failed");;
         mret JNull)
      JNull.

Definition step_15_content_feed (cursor_id : option string) : step json :=
  say (Banner "Step 15: Content Feed");;
  la ← attr lat;
  lo ← attr lng;
  if negb (truthy la) || negb (truthy lo) then
    say (Cross "No coordinates available");; mret JNull
  else
    id ← (if found cursor_id then mret (default "" cursor_id)
          else lift (encode_cursor default_cursor));
    or_else
      (response ← send (GetFeed la lo id);
       if is_200 response then lift (json_of response)
       else
         say (Cross "Failed");;
         mret JNull)
      JNull.

(** [find_now_on_doordash_cursor] with the line it prints on failure. *)
Definition find_cursor (homepage_data : json) : step (option string) :=
  cursor ← lift (find_now_on_doordash_cursor homepage_data);
  if found cursor then mret cursor
  else
    say (Cross "'Now on DoorDash' section not found in this location");;
    mret None.

(** [if stores:] *)
Definition some_stores (stores : list store_info) : bool :=
  match stores with [] => false | _ => true end.

(** [run_optimized_flow] from its step 13 on. *)
Definition from_set_default : step (option (list store_info)) :=
  is_default ← step_13_set_default_address;
  (if negb is_default
   then say (Cross "Failed to set default address - continuing anyway")
   else mret tt);;
  homepage_data ← step_14_homepage_feed;
  if negb (truthy homepage_data) then
    say (Cross "Failed to get homepage feed - ABORTING");; mret None
  else
  now_cursor ← find_cursor homepage_data;
  if found now_cursor then
    now_feed_data ← step_15_content_feed now_cursor;
    if truthy now_feed_data then
      stores ← lift (extract_stores_from_feed now_feed_data "Now on DoorDash");
      if some_stores stores then mret (Some stores)
      else
        say (Cross "No stores found in 'Now on DoorDash' feed");;
        mret None
    else
      say (Cross "Failed to get 'Now on DoorDash' content feed");;
      mret None
  else
    say (Cross "'Now on DoorDash' section not found");;
    say (Caution "Fallback: Getting general content feed...");;
    general_feed ← step_15_content_feed None;
    if truthy general_feed then
      stores ← lift (extract_stores_from_feed general_feed "General Feed");
      if some_stores stores then mret (Some stores) else mret None
    else mret None.

Definition run_optimized_flow (address_query : string)
    : step (option (list store_info)) :=
  step_1_health_check;;
  created ← step_2_create_guest;
  if negb created then
    say (Cross "Failed to create guest user - ABORTING");; mret None
  else
  checked ← step_8_get_addresses;
  if negb checked then
    say (Cross "Address check failed - ABORTING");; mret None
  else
  place_id ← step_9_address_autocomplete address_query;
  if negb (truthy place_id) then
    say (Cross "Address autocomplete failed - ABORTING");; mret None
  else
  detailed ← step_10_address_details place_id;
  if negb detailed then
    say (Cross "Failed to get address details - ABORTING");; mret None
  else
  validated ← step_11_validate_address place_id;
  if negb validated then
    say (Cross "Address validation failed - ABORTING");; mret None
  else
  added ← step_12_add_address place_id;
  if negb added then
    say (Cross "Failed to add address - ABORTING");; mret None
  else from_set_default.
End Steps.
End Optimized.

(** *** [DoorDashGuestFlow] *)

Module Guest.
Section Steps.
Context {World : Type} (remote : request → World → reply * World).
#[local] Abbreviation step := (M World).
#[local] Abbreviation send := (send remote).

Definition step_1_health_check : step bool :=
  say (Banner "Step 1: Health Check");;
  or_else
    (response ← send GetStatusOk;
     response ← (if (status_code response =? 403)%Z then
                   say (Caution "403 Forbidden - Trying alternative approach...");;
                   send GetStatusOk
                 else mret response);
     mret (is_200 response))
    false.

Definition step_2_create_guest_user : step bool :=
  say (Banner "Step 2: Create Guest User");;
  or_else
    (response ← send PostCreateGuest;
     if is_200 response then
       data ← lift (json_of response);
       nested ← lift (has_nested data "auth_token" "token");
       if nested : bool then
         auth_token ← lift (py_getitem data "auth_token");
         token ← lift (py_getitem auth_token "token");
         set_jwt_token token;;
         mret true
       else
         direct ← lift (py_in "token" data);
         if direct : bool then
           token ← lift (py_getitem data "token");
           set_jwt_token token;;
           mret true
         else
           say (Cross "No token in response");;
           lift (py_keys data);;
           has_auth ← lift (py_in "auth_token" data);
           (if has_auth : bool then
              auth_token ← lift (py_getitem data "auth_token");
              lift (py_keys auth_token);;
              mret tt
            else mret tt);;
           mret false
     else mret false)
    false.

Definition step_3_get_experiments : step bool :=
  say (Banner "Step 3: Get Feature Flags");;
  or_else (status_is_200 remote PostExperiments) false.

Definition step_4_register_device : step bool :=
  say (Banner "Step 4: Register Device");;
  or_else (status_is_200 remote PostRegisterDevice) false.

Definition step_5_privacy_consents : step bool :=
  say (Banner "Step 5: Privacy Consents");;
  or_else (status_is_200 remote GetPrivacyConsents) false.

Definition step_6_get_user_profile : step bool :=
  say (Banner "Step 6: Get User Profile");;
  or_else (status_is_200 remote GetConsumer) false.

Definition step_7_update_language : step bool :=
  say (Banner "Step 7: Update Language");;
  or_else (status_is_200 remote PatchLanguage) false.

Definition step_8_get_addresses : step bool :=
  say (Banner "Step 8: Get Addresses");;
  or_else (status_is_200 remote GetAddresses) false.

Definition step_9_address_autocomplete (address_query : string) : step json :=
  say (Banner ("Step 9: Address Autocomplete - '" +:+ address_query +:+ "'"));;
  or_else
    (response ← send (GetAutocomplete address_query);
     if is_200 response then
       data ← lift (json_of response);
       some ← (if truthy data
               then n ← lift (py_len data); mret (0 <? n)%nat
               else mret false);
       if some : bool then
         first_address ← lift (py_first data);
         place_id ← lift (py_get first_address "google_place_id" JNull);
         if truthy place_id then mret place_id
         else
           say (Cross "No google_place_id in first result");;
           mret JNull
       else
         say (Cross "No address suggestions found");;
         mret JNull
     else mret JNull)
    JNull.

Definition step_10_get_address_details (place_id : json) : step json :=
  say (Banner "Step 10: Get Address Details");;
  or_else
    (response ← send (GetAddressDetails place_id);
     if is_200 response then
       data ← lift (json_of response);
       has_lat ← lift (py_in "lat" data);
       both ← (if has_lat : bool then lift (py_in "lng" data) else mret false);
       if both : bool then
         la ← lift (py_getitem data "lat");
         set_lat la;;
         lo ← lift (py_getitem data "lng");
         set_lng lo;;
         mret data
       else mret JNull
     else mret JNull)
    JNull.

Definition step_11_validate_address (place_id : json) : step bool :=
  say (Banner "Step 11: Validate Address");;
  or_else (status_is_200 remote (PostValidateAddress place_id)) false.

Definition step_12_add_address (place_id : json) : step bool :=
  say (Banner "Step 12: Add Address");;
  or_else
    (response ← send (PostAddAddress place_id);
     if is_200 response then
       data ← lift (json_of response);
       has_id ← lift (py_in "id" data);
       if has_id : bool then
         id ← lift (py_getitem data "id");
         set_address_id id;;
         mret true
       else mret false
     else mret false)
    false.

Definition step_13_set_default_address : step bool :=
  say (Banner "Step 13: Set Default Address");;
  aid ← attr address_id;
  if negb (truthy aid) then
    say (Cross "No address ID available");; mret false
  else or_else (status_is_200 remote (PatchSetDefault aid)) false.

Definition step_14_homepage_feed : step json :=
  say (Banner "Step 14: Homepage Feed");;
  la ← attr lat;
  lo ← attr lng;
  if negb (truthy la) || negb (truthy lo) then
    say (Cross "No coordinates available");; mret JNull
  else
    or_else
      (response ← send (GetHomepageFeed la lo);
       if is_200 response then lift (json_of response) else mret JNull)
      JNull.

(** [len(cursor_id) > 100] on a cursor that is set. *)
Definition long_cursor (cursor_id : option string) : bool :=
  found cursor_id && (100 <? String.length (default "" cursor_id))%nat.

Definition step_15_content_feed (cursor_id : option string) : step json :=
  say (Banner "Step 15: Content Feed (TARGET!)");;
  la ← attr lat;
  lo ← attr lng;
  if negb (truthy la) || negb (truthy lo) then
    say (Cross "No coordinates available");; mret JNull
  else
    early ←
      (if long_cursor cursor_id then
         try_except
           (cursor_data ← lift (decode_cursor (default "" cursor_id));
            lift (py_get cursor_data "content_ids" (JArr []));;
            response ← send (GetFeed la lo (default "" cursor_id));
            if is_200 response then
              data ← lift (json_of response);
              mret (Some data)
            else
              say (Cross "Failed to access 'Now on DoorDash' feed");;
              mret None)
           (λ e,
              say (Caution "Error with 'Now on DoorDash' cursor, falling back to default");;
              mret None)
       else mret None);
    match early with
    | Some data => mret data
    | None =>
        id ← (if found cursor_id then mret (default "" cursor_id)
              else lift (encode_cursor default_cursor));
        or_else
          (response ← send (GetFeed la lo id);
           if is_200 response then lift (json_of response)
           else
             say (Cross "Failed to access content feed");;
             mret JNull)
          JNull
    end.

(** [run_complete_flow] from its step 13 on. *)
Definition from_set_default : step bool :=
  is_default ← step_13_set_default_address;
  if negb is_default then say (Cross "Set default address failed");; mret false else
  homepage_data ← step_14_homepage_feed;
  if negb (truthy homepage_data) then
    say (Cross "Homepage feed failed");; mret false
  else
  content_feed_data ← step_15_content_feed None;
  if negb (truthy content_feed_data) then
    say (Cross "Content feed access failed");; mret false
  else mret true.

Definition run_complete_flow (address_query : string) : step bool :=
  healthy ← step_1_health_check;
  if negb healthy then say (Cross "Health check failed");; mret false else
  created ← step_2_create_guest_user;
  if negb created then say (Cross "Guest user creation failed");; mret false else
  flags ← step_3_get_experiments;
  if negb flags then say (Cross "Experiments fetch failed");; mret false else
  registered ← step_4_register_device;
  if negb registered then say (Cross "Device registration failed");; mret false else
  consents ← step_5_privacy_consents;
  if negb consents then say (Cross "Privacy consents failed");; mret false else
  profile ← step_6_get_user_profile;
  if negb profile then say (Cross "User profile fetch failed");; mret false else
  language ← step_7_update_language;
  if negb language then say (Cross "Language update failed");; mret false else
  listed ← step_8_get_addresses;
  if negb listed then say (Cross "Address list fetch failed");; mret false else
  place_id ← step_9_address_autocomplete address_query;
  if negb (truthy place_id) then
    say (Cross "Address autocomplete failed");; mret false
  else
  address_details ← step_10_get_address_details place_id;
  if negb (truthy address_details) then
    say (Cross "Address details fetch failed");; mret false
  else
  validated ← step_11_validate_address place_id;
  if negb validated then say (Cross "Address validation failed");; mret false else
  added ← step_12_add_address place_id;
  if negb added then say (Cross "Add address failed");; mret false else
  from_set_default.
End Steps.
End Guest.

(** ** Three observations on a computation *)

(** It only appends to the console. *)
Definition grows {World A} (c : M World A) : Prop :=
  ∀ m, ∃ l, console (c m).2 = console m ++ l.

(** It ends with the line [l] on the console. *)
Definition reaches {World A} (l : line) (c : M World A) : Prop :=
  ∀ m, l ∈ console (c m).2.

(** It raises nothing. *)
Definition total {World A} (c : M World A) : Prop :=
  ∀ m, ∃ a m', c m = (Ok a, m').

(** Whatever it returns satisfies [P]. *)
Definition ensures {World A} (c : M World A) (P : A → Prop) : Prop :=
  ∀ m a m', c m = (Ok a, m') → P a.

Create HintDb flow discriminated.

(** ** Sample documents *)

Definition section_node (title uri : string) : json :=
  JObj [("text", JObj [("title", JStr title)]);
        ("events", JObj [("click", JObj [("data", JObj [("uri", JStr uri)])])])].

Definition scenario_A : json := section_node "Now on DoorDash" "facet_feed/ABC123/".

Definition scenario_B : json :=
  JObj [("a", JArr [JObj [("text", JObj [("title", JStr "Unrelated")])];
                    section_node "Now on doordash " "facet_feed/XYZ/"])].

(** A title that is [null]. *)
Definition doc_null_title : json := JObj [("text", JObj [("title", JNull)])].

(** A section whose uri is the bare prefix, followed by a proper one. *)
Definition doc_bare_prefix : json :=
  JArr [section_node "Now on DoorDash" "facet_feed/";
        section_node "Now on DoorDash" "facet_feed/ABC/"].

Definition bare_prefix_node : list (string * json) :=
  [("text", JObj [("title", JStr "Now on DoorDash")]);
   ("events", JObj [("click", JObj [("data", JObj [("uri", JStr "facet_feed/")])])])].

Definition store_node (title : string) : json :=
  JObj [("text", JObj [("title", JStr title)])].

(** Scenario C, with a short name and a nameless node carrying custom data. *)
Definition scenario_C : json :=
  JArr [store_node "Pizza Place";
        JObj [("custom", JObj [("rating", JInt 5)])];
        store_node "ab";
        store_node "Pizza place";
        JObj [("items", JArr [store_node "Taco Town"])]].

(** ** Sample remote services *)

Definition ok (v : json) : reply := Answer {| status_code := 200; body := Some v |}.

Definition status (n : Z) : reply := Answer {| status_code := n; body := None |}.

(** A stateless service: the reply depends on the request alone. *)
Definition scripted (script : request → reply) (r : request) (w : unit)
    : reply * unit :=
  (script r, w).

Definition token_reply : reply :=
  ok (JObj [("auth_token", JObj [("token", JStr "jwt-1")])]).

(** 40.75 and -73.5 *)
Definition coordinates : reply :=
  ok (JObj [("lat", JFloat (S754_finite false 163 (-2)));
            ("lng", JFloat (S754_finite true 147 (-1)))]).

(** A service that answers every request with 200, but for the four replies
    given. *)
Definition service (guest details set_default feed : reply) (r : request)
    : reply :=
  match r with
  | PostCreateGuest => guest
  | GetAutocomplete _ => ok (JArr [JObj [("google_place_id", JStr "place-1")]])
  | GetAddressDetails _ => details
  | PostAddAddress _ => ok (JObj [("id", JStr "address-1")])
  | PostSetDefault _ | PatchSetDefault _ => set_default
  | GetHomepageFeed _ _ => ok scenario_A
  | GetFeed _ _ _ => feed
  | _ => ok (JObj [])
  end.

(** A session after guest creation and address registration. *)
Definition registered : machine unit :=
  {| self := {| jwt_token := JStr "jwt-1"; address_id := JStr "address-1";
                lat := JFloat (S754_finite false 163 (-2));
                lng := JFloat (S754_finite true 147 (-1)) |};
     world := tt; console := []; sent := [] |}.

(** Scenario D: the guest reply lacks the nested token. *)
Definition scenario_D : request → reply :=
  service (ok (JObj [("auth_token", JObj [])])) coordinates (status 200)
    (ok scenario_C).

(** Every step succeeds and the section feed holds no store. *)
Definition empty_section : request → reply :=
  service token_reply coordinates (status 200) (ok (JObj [("items", JArr [])])).

Definition full_section : request → reply :=
  service token_reply coordinates (status 200) (ok scenario_C).

(** The latitude of the address is [null]. *)
Definition null_latitude : request → reply :=
  service token_reply (ok (JObj [("lat", JNull); ("lng", JInt 5)]))
    (status 200) (ok scenario_C).

(** A top-level token next to a [null] [auth_token]. *)
Definition null_auth_token : request → reply :=
  service (ok (JObj [("auth_token", JNull); ("token", JStr "jwt-2")]))
    coordinates (status 200) (ok scenario_C).

Definition direct_token : request → reply :=
  service (ok (JObj [("token", JStr "jwt-2")]))
    coordinates (status 200) (ok scenario_C).

(** The services that differ in the reply to the set-default request. *)
Definition set_default_replies (rep : reply) : request → reply :=
  service token_reply coordinates rep (ok scenario_C).

(** The guest request is rejected with status 500. *)
Definition guest_rejected : request → reply :=
  service (status 500) coordinates (status 200) (ok scenario_C).

(** An address on the equator. *)
Definition zero_latitude : request → reply :=
  service token_reply (ok (JObj [("lat", JInt 0); ("lng", JInt 5)]))
    (status 200) (ok scenario_C).

(** Two suggestions: the first is taken. *)
Definition two_suggestions (r : request) : reply :=
  match r with
  | GetAutocomplete _ =>
      ok (JArr [JObj [("google_place_id", JStr "place-1")];
                JObj [("google_place_id", JStr "place-2")]])
  | _ => full_section r
  end.

(** The homepage feed has a section title that is [null]. *)
Definition ill_typed_homepage (r : request) : reply :=
  match r with
  | GetHomepageFeed _ _ => ok doc_null_title
  | _ => full_section r
  end.

(** ** Further observations *)

(** The two exceptions a walker can meet on an ill-typed document. *)
Definition lookup_error (e : exn) : Prop :=
  e = AttributeError ∨ e = TypeError.

(** A record as [visit] appends it: labelled with the source and a path, its
    name trimmed, and the members of each block set together. *)
Definition labelled (source_name : string) (store : store_info) : Prop :=
  source store = Some source_name ∧ is_Some (path store).

Definition trimmed (store : store_info) : Prop :=
  ∃ n, name store = Some n ∧ strip n = n ∧ is_Some (subtitle store).

Definition blockwise (store : store_info) : Prop :=
  (is_Some (rating store) ↔ is_Some (delivery_fee store))
  ∧ (is_Some (rating store) ↔ is_Some (delivery_time store))
  ∧ (is_Some (store_id store) ↔ is_Some (uri store)).

(** A computation stays within the model. *)
Definition modelled {World A} (c : M World A) : Prop :=
  ∀ m, (c m).1 ≠ Raise Unmodelled.

(** Every exception it raises satisfies [P]. *)
Definition raises_only {World A} (P : exn → Prop) (c : M World A) : Prop :=
  ∀ m e m', c m = (Raise e, m') → P e.

(** It sends at most [n] requests. *)
Definition sends_at_most {World A} (n : nat) (c : M World A) : Prop :=
  ∀ m, (length (sent (c m).2) ≤ length (sent m) + n)%nat.

(** It sends nothing and leaves the remote service as it was. *)
Definition silent {World A} (c : M World A) : Prop :=
  ∀ m, sent (c m).2 = sent m ∧ world (c m).2 = world m.

(** It leaves the attribute [f] of the flow object as it was. *)
Definition keeps {World A} (f : session → json) (c : M World A) : Prop :=
  ∀ m, f (self (c m).2) = f (self m).

(** The second machine differs from the first by console lines at most. *)
Definition untouched {World} (m m' : machine World) : Prop :=
  sent m' = sent m ∧ world m' = world m ∧ self m' = self m.

(** * Properties *)

(** ** Section-cursor search *)

Lemma search_obj kvs :
  search_for_now_on_doordash (JObj kvs) =
  (here ← node_cursor kvs;
   match here with
   | Some cursor => Ok (Some cursor)
   | None => search_items kvs
   end).
Proof. reflexivity. Qed.

Lemma search_arr xs :
  search_for_now_on_doordash (JArr xs) = search_elems xs.
Proof. reflexivity. Qed.

Lemma contains_nonempty p s :
  nonempty p = true → contains p s = true → nonempty s = true.
Proof. destruct p; [done|]. destruct s; simpl; [done|done]. Qed.

Lemma lower_nonempty s : nonempty (lower s) = nonempty s.
Proof. by destruct s. Qed.

Lemma title_test s :
  nonempty s && contains "now on doordash" (lower s) =
  contains "now on doordash" (lower s).
Proof.
  destruct (contains _ _) eqn:E; [|by rewrite andb_false_r].
  apply contains_nonempty in E; [|done]. by rewrite lower_nonempty in E; rewrite E.
Qed.

#[local] Opaque contains lower strip startswith dict_get drop_chars
  ends_with_slash drop_last.

Lemma node_cursor_sound node r :
  node_cursor node = Ok r → r = section_token node.
Proof.
  unfold node_cursor, section_token, title_matches, click_uri, field,
    py_strip, py_in, py_getitem, py_get, py_startswith, dict_has,
    feed_prefix, token_of_uri, cursor_of_uri.
  unfold_bind. simpl. intros H.
  repeat (case_match; simplify_eq/=; try done);
    rewrite title_test in *; congruence.
Qed.

Lemma node_cursor_complete node uri :
  title_matches node = true → click_uri node = Some uri →
  node_cursor node =
  Ok (if startswith uri feed_prefix then Some (token_of_uri uri) else None).
Proof.
  unfold node_cursor, title_matches, click_uri, field,
    py_strip, py_in, py_getitem, py_get, py_startswith, dict_has,
    feed_prefix, token_of_uri, cursor_of_uri.
  unfold_bind. simpl. intros Ht Hu.
  repeat (case_match; simplify_eq/=; try done);
    rewrite title_test in *; congruence.
Qed.

#[local] Transparent contains lower strip startswith dict_get drop_chars
  ends_with_slash drop_last.

Lemma mapping_nodes_obj kvs :
  mapping_nodes (JObj kvs) = kvs :: nodes_of_values kvs.
Proof. reflexivity. Qed.

Lemma mapping_nodes_arr xs : mapping_nodes (JArr xs) = nodes_of_elems xs.
Proof. reflexivity. Qed.

Lemma mapping_nodes_leaf v : is_container v = false → mapping_nodes v = [].
Proof. by destruct v. Qed.

Lemma first_token_app l1 l2 :
  first_token (l1 ++ l2) =
  match first_token l1 with Some t => Some t | None => first_token l2 end.
Proof. induction l1 as [|n l1 IH]; simpl; [done|]. by destruct (section_token n). Qed.

Lemma first_token_proper l :
  Forall node_proper l →
  found (first_token l) =
  match first_token l with Some _ => true | None => false end.
Proof.
  induction 1 as [|n l Hn _ IH]; simpl; [done|].
  destruct (section_token n) as [t|] eqn:E; [|done].
  destruct t; [by destruct Hn|done].
Qed.

Lemma search_first_token doc :
  Forall node_typed (mapping_nodes doc) →
  Forall node_proper (mapping_nodes doc) →
  search_for_now_on_doordash doc = Ok (findToken doc).
Proof.
  unfold findToken.
  induction doc as [| | | | |xs IH|kvs IH] using json_tree_ind; try done.
  - rewrite search_arr, mapping_nodes_arr.
    induction IH as [|x xs Hx _ IHxs]; simpl; [done|].
    rewrite !Forall_app. intros [Ht1 Ht2] [Hp1 Hp2].
    rewrite Hx by done. unfold_bind. rewrite first_token_app.
    rewrite first_token_proper by done.
    destruct (first_token (mapping_nodes x)); [done|]. by apply IHxs.
  - rewrite search_obj, mapping_nodes_obj. simpl.
    rewrite !Forall_cons. intros [Ht Hts] [Hp Hps].
    unfold node_typed in Ht. destruct (node_cursor kvs) as [r|] eqn:E; [|done].
    apply node_cursor_sound in E as ->. unfold_bind.
    destruct (section_token kvs); [done|]. clear Ht Hp.
    induction IH as [|[k v] kvs Hv _ IHkvs]; simpl in *; [done|].
    revert Hts Hps. rewrite !Forall_app. intros [Ht1 Ht2] [Hp1 Hp2].
    destruct (is_container v) eqn:Ec.
    + rewrite Hv by done. rewrite first_token_app. unfold_bind.
      rewrite first_token_proper by done.
      destruct (first_token (mapping_nodes v)); [done|]. by apply IHkvs.
    + rewrite mapping_nodes_leaf by done. simpl. by apply IHkvs.
Qed.


Example scenario_A_token :
  find_now_on_doordash_cursor scenario_A = Ok (Some "ABC123").
Proof. reflexivity. Qed.

Example scenario_B_token :
  find_now_on_doordash_cursor scenario_B = Ok (Some "XYZ").
Proof. reflexivity. Qed.

Example empty_sequence_not_found :
  find_now_on_doordash_cursor (JArr []) = Ok None.
Proof. reflexivity. Qed.

Example null_title_raises :
  find_now_on_doordash_cursor doc_null_title = Raise AttributeError.
Proof. reflexivity. Qed.

Example bare_prefix_passed_over :
  findToken doc_bare_prefix = Some ""
  ∧ find_now_on_doordash_cursor doc_bare_prefix = Ok (Some "ABC").
Proof. split; reflexivity. Qed.

(** C1 (as stated) fails: a [null] title raises [AttributeError], and a
    section whose uri is the bare prefix is the first match in document
    order, yet the cursor of a later section is returned. *)
Lemma first_match_property_refuted :
  (wf_json doc_null_title = true ∧ ¬ first_match_property doc_null_title)
  ∧ (wf_json doc_bare_prefix = true ∧ ¬ first_match_property doc_bare_prefix).
Proof. repeat split; try reflexivity; vm_compute; discriminate. Qed.

(** C1 (amended): on a document whose mapping nodes are well typed and none
    of whose sections has the bare prefix as uri, the search returns the
    token of the first mapping node, in depth-first document order, whose
    trimmed title contains the phrase (case-insensitively) and whose click
    uri starts with the prefix; it returns [None] when there is no such node,
    and does not raise. *)
Theorem find_token_first_match doc :
  Forall node_typed (mapping_nodes doc) →
  Forall node_proper (mapping_nodes doc) →
  first_match_property doc.
Proof.
  intros Ht Hp. unfold first_match_property, find_now_on_doordash_cursor.
  rewrite search_first_token by done. unfold_bind. unfold findToken.
  rewrite first_token_proper by done. by destruct (first_token _).
Qed.

Lemma find_token_first_match_witness :
  Forall node_typed (mapping_nodes scenario_B)
  ∧ Forall node_proper (mapping_nodes scenario_B)
  ∧ find_now_on_doordash_cursor scenario_B = Ok (Some "XYZ").
Proof.
  assert (Ht : Forall node_typed (mapping_nodes scenario_B))
    by (apply (bool_decide_unpack _); vm_compute; reflexivity).
  assert (Hp : Forall node_proper (mapping_nodes scenario_B))
    by (apply (bool_decide_unpack _); vm_compute; reflexivity).
  split; [exact Ht|split; [exact Hp|]].
  exact (find_token_first_match scenario_B Ht Hp).
Defined.

Lemma found_some_nonempty r : found r = true → r ≠ Some "".
Proof. by intros H ->. Qed.

Lemma find_never_empty doc : find_now_on_doordash_cursor doc ≠ Ok (Some "").
Proof.
  unfold find_now_on_doordash_cursor. unfold_bind.
  destruct (search_for_now_on_doordash doc) as [r|]; [|done].
  destruct (found r) eqn:E; [|done].
  intros [= ->]. done.
Qed.

(** C9: the search never returns the empty token.  A section whose title
    matches and whose uri is exactly the prefix yields the empty string at
    that node; the caller's truth test rejects it: alone it gives [None], and
    inside a sequence or a mapping the loop goes on with the members that
    follow it. *)
Theorem empty_token_not_returned :
  (∀ doc, find_now_on_doordash_cursor doc ≠ Ok (Some ""))
  ∧ (∀ node,
       title_matches node = true → click_uri node = Some feed_prefix →
       search_for_now_on_doordash (JObj node) = Ok (Some "")
       ∧ find_now_on_doordash_cursor (JObj node) = Ok None
       ∧ (∀ rest, search_elems (JObj node :: rest) = search_elems rest)
       ∧ (∀ key rest,
            search_items ((key, JObj node) :: rest) = search_items rest)).
Proof.
  split; [apply find_never_empty|].
  intros node Ht Hu.
  assert (Hs : search_for_now_on_doordash (JObj node) = Ok (Some "")).
  { rewrite search_obj, (node_cursor_complete node feed_prefix) by done.
    reflexivity. }
  split; [done|]. split.
  { unfold find_now_on_doordash_cursor. by rewrite Hs. }
  split.
  - intros rest. cbn [search_elems]. by rewrite Hs.
  - intros key rest. cbn [search_items is_container]. by rewrite Hs.
Qed.

Lemma empty_token_not_returned_witness :
  find_now_on_doordash_cursor (JObj bare_prefix_node) = Ok None
  ∧ search_elems [JObj bare_prefix_node; scenario_A] = search_elems [scenario_A].
Proof.
  destruct (proj2 empty_token_not_returned bare_prefix_node eq_refl eq_refl)
    as (_ & Hfind & Helems & _).
  split; [exact Hfind|exact (Helems [scenario_A])].
Defined.

(** ** Store extraction *)

Lemma extract_obj source_name kvs path stores :
  extract_store_info source_name (JObj kvs) path stores =
  (stores ← visit source_name kvs path stores;
   extract_items source_name path kvs stores).
Proof. reflexivity. Qed.

Lemma extract_arr source_name xs path stores :
  extract_store_info source_name (JArr xs) path stores =
  extract_elems source_name path xs 0 stores.
Proof. reflexivity. Qed.

Lemma has_store_name_named info :
  has_store_name info = true → named info.
Proof.
  unfold has_store_name, named. destruct (name info) as [n|]; [|done].
  intros [_ Hlen%Nat.ltb_lt]%andb_true_iff. exists n. split; [done|lia].
Qed.

Lemma named_set_origin info s p : named info → named (set_origin info s p).
Proof. done. Qed.

Lemma visit_named source_name item path stores stores' :
  visit source_name item path stores = Ok stores' →
  Forall named stores → Forall named stores'.
Proof.
  unfold visit. unfold_bind. destruct (assemble item) as [info|]; [|done].
  destruct (has_store_name info) eqn:E; intros [= <-] H; [|done].
  apply Forall_app. split; [done|]. apply Forall_singleton.
  by apply named_set_origin, has_store_name_named.
Qed.

(** A node whose assembled name is missing or shorter than three characters
    adds nothing, whatever else it carries. *)
Lemma visit_short_name source_name item path stores info :
  assemble item = Ok info →
  (∀ n, name info = Some n → (String.length n < 3)%nat) →
  visit source_name item path stores = Ok stores.
Proof.
  intros Ha Hshort. unfold visit. rewrite Ha. unfold_bind.
  destruct (has_store_name info) eqn:E; [|done].
  apply has_store_name_named in E as (n & Hn & Hlen).
  specialize (Hshort n Hn). lia.
Qed.

Lemma extract_store_info_named source_name item :
  ∀ path stores stores',
    extract_store_info source_name item path stores = Ok stores' →
    Forall named stores → Forall named stores'.
Proof.
  induction item as [| | | | |xs IH|kvs IH] using json_tree_ind;
    try (by intros ??? [= <-]).
  - intros path stores stores'. rewrite extract_arr. generalize 0%nat.
    revert stores. induction IH as [|x xs Hx _ IHxs]; intros stores i; simpl.
    + by intros [= <-].
    + unfold_bind.
      destruct (extract_store_info source_name x _ stores) as [mid|] eqn:E;
        [|done].
      intros Hrest Hst. eapply IHxs; [exact Hrest|]. by eapply Hx.
  - intros path stores stores'. rewrite extract_obj. unfold_bind.
    destruct (visit source_name kvs path stores) as [mid|] eqn:Ev; [|done].
    intros Hitems Hst. apply (visit_named _ _ _ _ _ Ev) in Hst.
    clear Ev stores. revert mid Hitems Hst.
    induction IH as [|[k v] kvs Hv _ IHkvs]; intros stores; simpl.
    + by intros [= <-].
    + destruct (is_container v); [|by apply IHkvs].
      unfold_bind.
      destruct (extract_store_info source_name v _ stores) as [mid|] eqn:E;
        [|done].
      intros Hrest Hst. eapply IHkvs; [exact Hrest|]. by eapply Hv.
Qed.

Lemma foldl_keep_first stores : ∀ acc seen,
  (foldl keep_first (acc, seen) stores).1 = acc ++ first_occurrences seen stores.
Proof.
  induction stores as [|s stores IH]; intros acc seen; simpl.
  - by rewrite app_nil_r.
  - destruct (nonempty (name_key s) && bool_decide (name_key s ∉ seen)).
    + by rewrite IH, <- app_assoc.
    + apply IH.
Qed.

Lemma remove_duplicates_first_occurrences stores :
  remove_duplicates stores = first_occurrences ∅ stores.
Proof. unfold remove_duplicates. by rewrite foldl_keep_first. Qed.

Lemma first_occurrences_sublist stores : ∀ seen,
  sublist (first_occurrences seen stores) stores.
Proof.
  induction stores as [|s stores IH]; intros seen; simpl; [done|].
  destruct (_ && _); [by apply sublist_skip|by apply sublist_cons].
Qed.

Lemma first_occurrences_fresh stores : ∀ seen r,
  r ∈ first_occurrences seen stores →
  (name_key r ∉ seen) ∧ nonempty (name_key r) = true.
Proof.
  induction stores as [|s stores IH]; intros seen r; simpl.
  - by intros ?%elem_of_nil.
  - destruct (nonempty (name_key s) && bool_decide (name_key s ∉ seen)) eqn:E.
    + apply andb_true_iff in E as [Hne Hs%bool_decide_eq_true].
      intros [->|[Hr ?]%IH]%elem_of_cons; [done|].
      by apply not_elem_of_union in Hr as [_ Hr].
    + apply IH.
Qed.

Lemma first_occurrences_NoDup stores : ∀ seen,
  NoDup (name_key <$> first_occurrences seen stores).
Proof.
  induction stores as [|s stores IH]; intros seen; simpl; [constructor|].
  destruct (_ && _); [|apply IH].
  rewrite fmap_cons. constructor; [|apply IH].
  intros (r & Hk & [Hr _]%first_occurrences_fresh)%list_elem_of_fmap.
  rewrite <- Hk in Hr. apply Hr, elem_of_union_l. by apply elem_of_singleton.
Qed.

Lemma first_occurrences_cover stores : ∀ seen s,
  s ∈ stores → nonempty (name_key s) = true → name_key s ∉ seen →
  name_key s ∈ name_key <$> first_occurrences seen stores.
Proof.
  induction stores as [|s' stores IH]; intros seen s; simpl.
  - by intros ?%elem_of_nil.
  - intros Hin Hne Hfresh.
    destruct (nonempty (name_key s') && bool_decide (name_key s' ∉ seen)) eqn:E.
    + rewrite fmap_cons.
      destruct (decide (name_key s = name_key s')) as [->|Hk];
        [by left|].
      right. apply elem_of_cons in Hin as [->|Hin]; [done|].
      apply IH; [done..|].
      apply not_elem_of_union. split; [|done]. by rewrite elem_of_singleton.
    + apply elem_of_cons in Hin as [->|Hin]; [|by apply IH].
      rewrite Hne in E. simpl in E. by apply bool_decide_eq_false in E.
Qed.

Lemma first_occurrences_first stores : ∀ seen r,
  r ∈ first_occurrences seen stores →
  ∃ pre post, stores = pre ++ r :: post ∧ name_key r ∉ name_key <$> pre.
Proof.
  induction stores as [|s stores IH]; intros seen r; simpl.
  - by intros ?%elem_of_nil.
  - destruct (nonempty (name_key s) && bool_decide (name_key s ∉ seen)) eqn:E.
    + intros [->|Hr]%elem_of_cons.
      * exists [], stores. split; [done|]. by intros ?%elem_of_nil.
      * destruct (first_occurrences_fresh _ _ _ Hr) as [Hfresh _].
        apply not_elem_of_union in Hfresh as [Hk%not_elem_of_singleton _].
        destruct (IH _ _ Hr) as (pre & post & -> & Hpre).
        exists (s :: pre), post. split; [done|].
        rewrite fmap_cons. by intros [?|?]%elem_of_cons.
    + intros Hr. destruct (first_occurrences_fresh _ _ _ Hr) as [Hfresh Hne].
      assert (Hk : name_key r ≠ name_key s).
      { intros Hk. rewrite Hk in Hfresh, Hne. rewrite Hne in E. simpl in E.
        by apply bool_decide_eq_false in E. }
      destruct (IH _ _ Hr) as (pre & post & -> & Hpre).
      exists (s :: pre), post. split; [done|].
      rewrite fmap_cons. by intros [?|?]%elem_of_cons.
Qed.

Lemma lower_length s : String.length (lower s) = String.length s.
Proof. induction s as [|c s IH]; simpl; congruence. Qed.

Lemma named_key_nonempty store : named store → nonempty (name_key store) = true.
Proof.
  intros (n & Hn & Hlen). unfold name_key. rewrite Hn. simpl.
  pose proof (lower_length n) as Hl. destruct (lower n); simpl in *; [lia|done].
Qed.

(** C2: the list returned holds one record for each lower-cased name found
    among the candidates collected by the traversal: the records are
    candidates in traversal order, no two of them share a lower-cased name,
    every candidate's lower-cased name is that of a returned record, and each
    returned record is the first candidate bearing its lower-cased name (so
    it keeps the first-seen casing). *)
Theorem extract_one_record_per_name feed_data source_name stores :
  extract_store_info source_name feed_data "" [] = Ok stores →
  ∃ unique_stores,
    extract_stores_from_feed feed_data source_name = Ok unique_stores
    ∧ sublist unique_stores stores
    ∧ NoDup (name_key <$> unique_stores)
    ∧ (∀ s, s ∈ stores → name_key s ∈ name_key <$> unique_stores)
    ∧ (∀ r, r ∈ unique_stores →
         ∃ pre post, stores = pre ++ r :: post
                     ∧ name_key r ∉ name_key <$> pre).
Proof.
  intros Hx. exists (remove_duplicates stores).
  unfold extract_stores_from_feed. rewrite Hx. split; [done|].
  rewrite remove_duplicates_first_occurrences.
  split; [apply first_occurrences_sublist|].
  split; [apply first_occurrences_NoDup|].
  split; [|apply first_occurrences_first].
  intros s Hs. apply first_occurrences_cover; [done| |apply not_elem_of_empty].
  apply named_key_nonempty.
  pose proof (extract_store_info_named _ _ _ _ _ Hx (Forall_nil_2 _)) as Hall.
  rewrite Forall_forall in Hall. by apply Hall.
Qed.

Lemma extract_one_record_per_name_witness :
  ∃ first second third,
    extract_store_info "feed" scenario_C "" [] = Ok [first; second; third]
    ∧ extract_stores_from_feed scenario_C "feed" = Ok [first; third]
    ∧ name first = Some "Pizza Place" ∧ name second = Some "Pizza place".
Proof.
  eexists _, _, _. split; [reflexivity|].
  destruct (extract_one_record_per_name scenario_C "feed" _ eq_refl)
    as (unique & Hu & _).
  split; [|split; reflexivity].
  vm_compute in Hu. vm_compute. exact eq_refl.
Defined.

Lemma extraction_named feed_data source_name unique_stores :
  extract_stores_from_feed feed_data source_name = Ok unique_stores →
  Forall named unique_stores.
Proof.
  unfold extract_stores_from_feed. unfold_bind.
  destruct (extract_store_info source_name feed_data "" []) as [stores|] eqn:Hx;
    [|done].
  intros [= <-]. rewrite remove_duplicates_first_occurrences.
  pose proof (extract_store_info_named _ _ _ _ _ Hx (Forall_nil_2 _)) as Hall.
  rewrite Forall_forall in Hall |- *. intros r Hr. apply Hall.
  eapply elem_of_sublist; [exact Hr|apply first_occurrences_sublist].
Qed.

(** C3: every record returned has a name of at least three characters (so a
    non-empty one); a node without such a name is not emitted, whatever
    rating, delivery or identifier data it carries. *)
Theorem extract_only_named feed_data source_name unique_stores :
  extract_stores_from_feed feed_data source_name = Ok unique_stores →
  Forall named unique_stores
  ∧ ∀ item path stores info,
      assemble item = Ok info →
      (∀ n, name info = Some n → (String.length n < 3)%nat) →
      visit source_name item path stores = Ok stores.
Proof.
  intros Hx. split; [by eapply extraction_named|].
  intros item path stores info. apply visit_short_name.
Qed.

Lemma extract_only_named_witness :
  ∃ unique_stores,
    extract_stores_from_feed scenario_C "feed" = Ok unique_stores
    ∧ Forall named unique_stores.
Proof.
  eexists. split; [reflexivity|].
  exact (proj1 (extract_only_named scenario_C "feed" _ eq_refl)).
Defined.

(** ** The flows *)

Ltac run :=
  cbv [mbind mret M_bind M_ret say send lift attr assign try_except or_else
       status_is_200 set_jwt_token set_address_id set_lat set_lng];
  cbn [self world console sent jwt_token address_id lat lng fst snd].

Lemma create_guest_bad_status {World} (remote : request → World → reply * World)
    m r w :
  remote PostCreateGuest (world m) = (Answer r, w) →
  status_code r ≠ 200%Z →
  ∃ m', Optimized.step_2_create_guest remote m = (Ok false, m')
        ∧ self m' = self m
        ∧ console m' = console m ++
            [Banner "Step 2: Create Guest User (CRITICAL)"; Cross "Failed"].
Proof.
  intros Hr Hs. unfold Optimized.step_2_create_guest. run. rewrite Hr.
  unfold is_200. apply Z.eqb_neq in Hs. rewrite Hs. cbn.
  eexists. split; [reflexivity|]. split; [done|]. cbn. by rewrite <- app_assoc.
Qed.

(** C4 (as stated) fails: the results do not tell the failures apart.  The
    step returns [False] for the body [{"auth_token": {}}] as it does for a
    rejected status, and the flow returns the same [None] for both and for a
    section without stores: no returned value names a failure class or a
    step. *)
Lemma guest_failure_results_coincide :
  (Optimized.step_2_create_guest (scripted scenario_D) (boot tt)).1 = Ok false
  ∧ (Optimized.step_2_create_guest (scripted guest_rejected) (boot tt)).1
    = Ok false
  ∧ (Optimized.run_optimized_flow (scripted scenario_D) "Elms Bup 10439"
       (boot tt)).1 = Ok None
  ∧ (Optimized.run_optimized_flow (scripted guest_rejected) "Elms Bup 10439"
       (boot tt)).1 = Ok None
  ∧ (Optimized.run_optimized_flow (scripted empty_section) "Elms Bup 10439"
       (boot tt)).1 = Ok None.
Proof.
  repeat match goal with |- _ ∧ _ => split end; vm_compute; reflexivity.
Qed.

(** C4 (amended): when the reply to guest creation is 200 with the body
    [{"auth_token": {}}], the failure shows on the console, not in the
    results: the step prints "No token in response", not the "Failed" line
    of a rejected status; the flow prints its abort line for that step,
    returns [None] as every abort does, keeps no credential, and sends
    nothing after the guest request. *)
Theorem guest_reply_without_token_aborts {World}
    (remote : request → World → reply * World) address_query w :
  (∀ w0, (remote PostCreateGuest w0).1 =
         Answer {| status_code := 200;
                   body := Some (JObj [("auth_token", JObj [])]) |}) →
  ∃ m before,
    Optimized.run_optimized_flow remote address_query (boot w) = (Ok None, m)
    ∧ sent m = [GetStatusOk; PostCreateGuest]
    ∧ jwt_token (self m) = JNull
    ∧ console m = before ++
        [Banner "Step 2: Create Guest User (CRITICAL)";
         Cross "No token in response";
         Cross "Failed to create guest user - ABORTING"]
    ∧ Cross "Failed" ∉ console m.
Proof.
  intros H.
  unfold Optimized.run_optimized_flow, Optimized.step_1_health_check,
    Optimized.step_2_create_guest.
  run. cbn.
  destruct (remote GetStatusOk w) as [[resp|msg] w1]; cbn;
    specialize (H w1); destruct (remote PostCreateGuest w1) as [rep w2];
    cbn in H; subst rep; cbn.
  - eexists _, [_]. repeat split; try reflexivity.
    intros Hin. repeat (apply elem_of_cons in Hin as [?|Hin]; [done|]).
    by apply elem_of_nil in Hin.
  - eexists _, [_; _]. repeat split; try reflexivity.
    intros Hin. repeat (apply elem_of_cons in Hin as [?|Hin]; [done|]).
    by apply elem_of_nil in Hin.
Qed.

Lemma guest_reply_without_token_aborts_witness :
  ∃ m before,
    Optimized.run_optimized_flow (scripted scenario_D) "Elms Bup 10439" (boot tt)
    = (Ok None, m)
    ∧ sent m = [GetStatusOk; PostCreateGuest]
    ∧ jwt_token (self m) = JNull
    ∧ console m = before ++
        [Banner "Step 2: Create Guest User (CRITICAL)";
         Cross "No token in response";
         Cross "Failed to create guest user - ABORTING"]
    ∧ Cross "Failed" ∉ console m.
Proof.
  exact (guest_reply_without_token_aborts (scripted scenario_D)
           "Elms Bup 10439" tt (λ _, eq_refl)).
Defined.

Section Observations.
Context {World : Type}.
Implicit Types (m : machine World).

Lemma grows_ret {A} (a : A) : grows (mret a : M World A).
Proof. intros m. exists []. by rewrite app_nil_r. Qed.

Lemma grows_lift {A} (r : result A) : grows (lift r : M World A).
Proof. intros m. exists []. by rewrite app_nil_r. Qed.

Lemma grows_say (l : line) : grows (say l : M World unit).
Proof. intros m. by exists [l]. Qed.

Lemma grows_attr f : grows (attr f : M World json).
Proof. intros m. exists []. by rewrite app_nil_r. Qed.

Lemma grows_assign f : grows (assign f : M World unit).
Proof. intros m. exists []. by rewrite app_nil_r. Qed.

Lemma grows_send remote r : grows (send remote r : M World response).
Proof.
  intros m. exists []. unfold send.
  destruct (remote r (world m)) as [[resp|msg] w]; by rewrite app_nil_r.
Qed.

Lemma grows_bind {A B} (c : M World A) (k : A → M World B) :
  grows c → (∀ a, grows (k a)) → grows (c ≫= k).
Proof.
  intros Hc Hk m. unfold mbind, M_bind. destruct (Hc m) as [l1 H1].
  destruct (c m) as [[a|e] m1]; cbn in *.
  - destruct (Hk a m1) as [l2 H2]. exists (l1 ++ l2).
    by rewrite H2, H1, app_assoc.
  - by exists l1.
Qed.

Lemma grows_try {A} (body : M World A) handler :
  grows body → (∀ e, grows (handler e)) → grows (try_except body handler).
Proof.
  intros Hb Hh m. unfold try_except. destruct (Hb m) as [l1 H1].
  destruct (body m) as [[a|e] m1]; cbn in *; [by exists l1|].
  assert (∃ l, console (handler e m1).2 = console m ++ l) as Hcaught.
  { destruct (Hh e m1) as [l2 H2]. exists (l1 ++ l2).
    by rewrite H2, H1, app_assoc. }
  destruct e; try done. by exists l1.
Qed.

Lemma reaches_say (l : line) : reaches l (say l : M World unit).
Proof. intros m. cbn. apply elem_of_app. right. by left. Qed.

Lemma reaches_bind_l {A B} (l : line) (c : M World A) (k : A → M World B) :
  reaches l c → (∀ a, grows (k a)) → reaches l (c ≫= k).
Proof.
  intros Hc Hk m. unfold mbind, M_bind. specialize (Hc m).
  destruct (c m) as [[a|e] m1]; cbn in *; [|done].
  destruct (Hk a m1) as [l2 ->]. apply elem_of_app. by left.
Qed.

Lemma reaches_bind_r {A B} (l : line) (c : M World A) (k : A → M World B) :
  total c → (∀ a, reaches l (k a)) → reaches l (c ≫= k).
Proof.
  intros Hc Hk m. unfold mbind, M_bind.
  destruct (Hc m) as (a & m1 & ->). apply Hk.
Qed.

Lemma total_ret {A} (a : A) : total (mret a : M World A).
Proof. intros m. by eexists _, _. Qed.

Lemma total_say (l : line) : total (say l : M World unit).
Proof. intros m. by eexists _, _. Qed.

Lemma total_attr f : total (attr f : M World json).
Proof. intros m. by eexists _, _. Qed.

Lemma total_assign f : total (assign f : M World unit).
Proof. intros m. by eexists _, _. Qed.

Lemma total_bind {A B} (c : M World A) (k : A → M World B) :
  total c → (∀ a, total (k a)) → total (c ≫= k).
Proof.
  intros Hc Hk m. unfold mbind, M_bind.
  destruct (Hc m) as (a & m1 & ->). apply Hk.
Qed.

(** A handler that cannot fail makes the block total, provided the body
    stays within the model. *)
Lemma total_try {A} (body : M World A) handler :
  (∀ m, (body m).1 ≠ Raise Unmodelled) →
  (∀ e, total (handler e)) → total (try_except body handler).
Proof.
  intros Hb Hh m. unfold try_except. specialize (Hb m).
  destruct (body m) as [[a|e] m1]; cbn in *; [by eexists _, _|].
  destruct e; try apply Hh. done.
Qed.

Lemma ensures_ret {A} (a : A) (P : A → Prop) :
  P a → ensures (mret a : M World A) P.
Proof. by intros Ha m a' m' [= <- _]. Qed.

Lemma ensures_bind {A B} (c : M World A) (k : A → M World B) Q P :
  ensures c Q → (∀ a, Q a → ensures (k a) P) → ensures (c ≫= k) P.
Proof.
  intros Hc Hk m b m'. unfold mbind, M_bind.
  destruct (c m) as [[a|e] m1] eqn:E; [|done].
  apply Hk. by eapply Hc.
Qed.

Lemma ensures_any {A} (c : M World A) : ensures c (λ _, True).
Proof. by intros ????. Qed.

Lemma ensures_lift {A} (r : result A) :
  ensures (lift r : M World A) (λ a, r = Ok a).
Proof. by intros m a m' [= -> _]. Qed.
End Observations.

#[export] Hint Resolve grows_ret grows_lift grows_say grows_attr grows_assign
  grows_send total_ret total_say total_attr total_assign : flow.

(** Breaks a computation down to the primitives, for [grows]. *)
Ltac grows_steps :=
  repeat first
    [ progress eauto with flow
    | apply grows_bind; [|intros ?]
    | apply grows_try; [|intros ?]
    | match goal with
      | |- grows (if ?b then _ else _) => destruct b
      | |- grows (match ?x with _ => _ end) => destruct x
      end ].

Section Optimized_facts.
Context {World : Type} (remote : request → World → reply * World).

Lemma step_14_grows : grows (Optimized.step_14_homepage_feed remote).
Proof.
  unfold Optimized.step_14_homepage_feed, or_else, set_lat. grows_steps.
Qed.

Lemma step_15_grows cursor_id :
  grows (Optimized.step_15_content_feed remote cursor_id).
Proof.
  unfold Optimized.step_15_content_feed, or_else. grows_steps.
Qed.

Lemma find_cursor_grows doc : grows (Optimized.find_cursor (World:=World) doc).
Proof. unfold Optimized.find_cursor. grows_steps. Qed.

Lemma step_13_total : total (Optimized.step_13_set_default_address remote).
Proof.
  intros m. unfold Optimized.step_13_set_default_address. run.
  destruct (negb _ || negb _); [by eexists _, _|].
  destruct (remote _ _) as [[resp|msg] w]; cbn; [|by eexists _, _].
  destruct (is_200 resp); [by eexists _, _|].
  destruct (_ =? _)%Z; by eexists _, _.
Qed.

Lemma step_13_success m :
  truthy (jwt_token (self m)) = true →
  truthy (address_id (self m)) = true →
  ∃ m', Optimized.step_13_set_default_address remote m = (Ok true, m').
Proof.
  intros Hj Ha. unfold Optimized.step_13_set_default_address. run.
  rewrite Hj, Ha. cbn.
  destruct (remote _ _) as [[resp|msg] w]; cbn; [|by eexists].
  destruct (is_200 resp); [by eexists|].
  destruct (_ =? _)%Z; by eexists.
Qed.

Lemma from_set_default_reaches_homepage :
  reaches (Banner "Step 14: Homepage Feed") (Optimized.from_set_default remote).
Proof.
  unfold Optimized.from_set_default.
  apply reaches_bind_r; [apply step_13_total|]. intros b.
  apply reaches_bind_r; [destruct b; cbn; eauto with flow|]. intros _.
  apply reaches_bind_l.
  - unfold Optimized.step_14_homepage_feed.
    apply reaches_bind_l; [apply reaches_say|]. intros _.
    unfold or_else. grows_steps.
  - intros homepage. pose proof find_cursor_grows. pose proof step_15_grows.
    grows_steps.
Qed.
End Optimized_facts.

Section Guest_facts.
Context {World : Type} (remote : request → World → reply * World).

Lemma guest_set_default_aborts m rep w :
  truthy (address_id (self m)) = true →
  remote (PatchSetDefault (address_id (self m))) (world m) = (rep, w) →
  (∀ r, rep = Answer r → status_code r ≠ 200%Z) →
  ∃ m' before,
    Guest.from_set_default remote m = (Ok false, m')
    ∧ sent m' = sent m ++ [PatchSetDefault (address_id (self m))]
    ∧ console m' = before ++ [Cross "Set default address failed"].
Proof.
  intros Ha Hrep Hbad.
  unfold Guest.from_set_default, Guest.step_13_set_default_address. run.
  rewrite Ha. cbn. rewrite Hrep. destruct rep as [r|msg]; cbn.
  - specialize (Hbad r eq_refl). unfold is_200.
    apply Z.eqb_neq in Hbad. rewrite Hbad. cbn.
    eexists _, _. by repeat split.
  - eexists _, _. by repeat split.
Qed.

Lemma guest_direct_token m r w data token :
  remote PostCreateGuest (world m) = (Answer r, w) →
  status_code r = 200%Z →
  body r = Some (JObj data) →
  dict_get data "token" = Some token →
  has_nested (JObj data) "auth_token" "token" = Ok false →
  ∃ m', Guest.step_2_create_guest_user remote m = (Ok true, m')
        ∧ jwt_token (self m') = token.
Proof.
  intros Hrep Hs Hb Ht Hn. unfold Guest.step_2_create_guest_user. run.
  rewrite Hrep. unfold is_200, json_of. rewrite Hs, Hb.
  cbn -[has_nested]. rewrite Hn. cbn. unfold dict_has. rewrite Ht. cbn.
  by eexists.
Qed.
End Guest_facts.

(** C5 fails in the guest flow: its address-detail step tests only that the
    keys are present.  With latitude [null] the step returns the body, the
    flow validates, registers and sets the address, and stops at the homepage
    feed for want of coordinates. *)
Theorem guest_details_accept_null_latitude :
  (∃ data m,
     Guest.step_10_get_address_details (scripted null_latitude)
       (JStr "place-1") (boot tt) = (Ok data, m)
     ∧ truthy data = true ∧ lat (self m) = JNull)
  ∧ (∃ m before,
       Guest.run_complete_flow (scripted null_latitude) "New York, NY" (boot tt)
       = (Ok false, m)
       ∧ lat (self m) = JNull
       ∧ sent m =
           [GetStatusOk; PostCreateGuest; PostExperiments; PostRegisterDevice;
            GetPrivacyConsents; GetConsumer; PatchLanguage; GetAddresses;
            GetAutocomplete "New York, NY"; GetAddressDetails (JStr "place-1");
            PostValidateAddress (JStr "place-1");
            PostAddAddress (JStr "place-1");
            PatchSetDefault (JStr "address-1")]
       ∧ console m = before ++
           [Banner "Step 14: Homepage Feed"; Cross "No coordinates available";
            Cross "Homepage feed failed"]).
Proof.
  split.
  - eexists _, _. vm_compute. done.
  - eexists _, (_ :: _ :: _ :: _ :: _ :: _ :: _ :: _ :: _ :: _ :: _ :: _ :: _ :: []).
    vm_compute. done.
Qed.

(** The optimized flow does what C5 asks: on the same reply its step fails. *)
Example optimized_details_reject_null_latitude :
  ∃ m, Optimized.step_10_address_details (scripted null_latitude)
         (JStr "place-1") registered = (Ok false, m)
       ∧ console m = [Banner "Step 10: Get Address Details & Coordinates";
                      Cross "Invalid coordinates in response"].
Proof. eexists. vm_compute. done. Qed.

Lemma optimized_details_checked {World}
    (remote : request → World → reply * World) place_id m m' :
  Optimized.step_10_address_details remote place_id m = (Ok true, m') →
  Optimized.is_none (lat (self m')) = false
  ∧ Optimized.is_none (lng (self m')) = false.
Proof.
  unfold Optimized.step_10_address_details. run.
  destruct (negb _); [done|].
  destruct (remote _ _) as [[resp|msg] w]; cbn; [|done].
  destruct (is_200 resp); [|done].
  destruct (json_of resp) as [data|e]; cbn; [|by destruct e].
  destruct (py_get data "lat" JNull) as [la|e]; cbn; [|by destruct e].
  destruct (py_get data "lng" JNull) as [lo|e]; cbn; [|by destruct e].
  destruct (py_get data "printable_address" JNull) as [?|e]; cbn;
    [|by destruct e].
  destruct (Optimized.is_none la || Optimized.is_none lo) eqn:E; cbn; [done|].
  intros [= <-]. cbn. by apply orb_false_iff in E.
Qed.

(** C6 (as stated) fails in both flows: the optimized step reports success
    on a 500 reply and on a transport failure as it does on 404, and the
    guest step reports failure on 404. *)
Lemma set_default_tolerance_refuted :
  (Optimized.step_13_set_default_address
     (scripted (set_default_replies (status 500))) registered).1 = Ok true
  ∧ (Optimized.step_13_set_default_address
       (scripted (set_default_replies (Broken "timed out"))) registered).1
    = Ok true
  ∧ (Guest.step_13_set_default_address
       (scripted (set_default_replies (status 404))) registered).1 = Ok false.
Proof. repeat split. Qed.

(** C6 (amended): with credential and address identifier set, the optimized
    step reports success whatever the remote service does, and the flow goes
    on to the homepage feed whatever the step reports; the guest step
    succeeds on 200 only, and on any other outcome its flow stops with the
    line "Set default address failed" and sends nothing more. *)
Theorem set_default_tolerance {World}
    (remote : request → World → reply * World) m :
  (truthy (jwt_token (self m)) = true →
   truthy (address_id (self m)) = true →
   ∃ m', Optimized.step_13_set_default_address remote m = (Ok true, m'))
  ∧ Banner "Step 14: Homepage Feed"
    ∈ console (Optimized.from_set_default remote m).2
  ∧ (truthy (address_id (self m)) = true →
     ∀ rep w,
       remote (PatchSetDefault (address_id (self m))) (world m) = (rep, w) →
       (∀ r, rep = Answer r → status_code r ≠ 200%Z) →
       ∃ m' before,
         Guest.from_set_default remote m = (Ok false, m')
         ∧ sent m' = sent m ++ [PatchSetDefault (address_id (self m))]
         ∧ console m' = before ++ [Cross "Set default address failed"]).
Proof.
  split; [apply step_13_success|].
  split; [apply from_set_default_reaches_homepage|].
  intros Ha rep w. by apply guest_set_default_aborts.
Qed.

Lemma set_default_tolerance_witness :
  (∃ m', Optimized.step_13_set_default_address
           (scripted (set_default_replies (status 404))) registered
         = (Ok true, m'))
  ∧ (∃ m' before,
       Guest.from_set_default (scripted (set_default_replies (status 404)))
         registered = (Ok false, m')
       ∧ sent m' = [PatchSetDefault (JStr "address-1")]
       ∧ console m' = before ++ [Cross "Set default address failed"]).
Proof.
  destruct (set_default_tolerance
              (scripted (set_default_replies (status 404))) registered)
    as (Hopt & _ & Hguest).
  split; [exact (Hopt eq_refl eq_refl)|].
  refine (Hguest eq_refl (status 404) tt eq_refl _).
  intros r [= <-]. discriminate.
Defined.

(** C10 (as stated) fails: with ["auth_token": null] next to a top-level
    token the membership test raises [TypeError], the handler catches it,
    and the step fails without a credential. *)
Lemma guest_direct_token_refuted :
  ∃ m, Guest.step_2_create_guest_user (scripted null_auth_token) (boot tt)
       = (Ok false, m)
       ∧ jwt_token (self m) = JNull
       ∧ console m = [Banner "Step 2: Create Guest User"; Caught TypeError].
Proof. eexists. vm_compute. done. Qed.

(** C10 (amended): on a 200 reply whose body is a mapping with a top-level
    ["token"], and on which the test for the nested shape evaluates to false
    (no ["auth_token"] member, or one that is a mapping, sequence or string
    without ["token"]), the step succeeds and the credential is the value of
    the top-level key. *)
Theorem guest_direct_token_accepted {World}
    (remote : request → World → reply * World) m r w data token :
  remote PostCreateGuest (world m) = (Answer r, w) →
  status_code r = 200%Z →
  body r = Some (JObj data) →
  dict_get data "token" = Some token →
  has_nested (JObj data) "auth_token" "token" = Ok false →
  ∃ m', Guest.step_2_create_guest_user remote m = (Ok true, m')
        ∧ jwt_token (self m') = token.
Proof. apply guest_direct_token. Qed.

Lemma guest_direct_token_accepted_witness :
  ∃ m', Guest.step_2_create_guest_user (scripted direct_token) (boot tt)
        = (Ok true, m')
        ∧ jwt_token (self m') = JStr "jwt-2".
Proof.
  exact (guest_direct_token_accepted (scripted direct_token) (boot tt)
           _ tt _ (JStr "jwt-2") eq_refl eq_refl eq_refl eq_refl eq_refl).
Defined.

(** Breaks a computation down for [ensures], keeping what a lifted call
    returned. *)
Ltac ensures_steps :=
  repeat first
    [ assumption
    | apply ensures_ret
    | eapply ensures_bind; [apply ensures_lift|intros ? ?]
    | eapply ensures_bind; [apply ensures_any|intros ? _]
    | match goal with
      | |- ensures (if ?b then _ else _) _ => destruct b eqn:?
      end ].

Lemma some_stores_nonempty stores :
  Optimized.some_stores stores = true → stores ≠ [].
Proof. by destruct stores. Qed.

Lemma from_set_default_stores {World}
    (remote : request → World → reply * World) :
  ensures (Optimized.from_set_default remote)
    (λ r, ∀ stores, r = Some stores → stores ≠ [] ∧ Forall named stores).
Proof.
  unfold Optimized.from_set_default.
  ensures_steps; intros stores ?; simplify_eq;
    (split; [by apply some_stores_nonempty|by eapply extraction_named]).
Qed.

(** C7 (as stated) fails: every step succeeds, the section feed is fetched
    and holds no store, and the flow returns [None], as it does when a step
    fails, after the line "No stores found in 'Now on DoorDash' feed". *)
Lemma empty_section_returns_none :
  ∃ m before la lo feed,
    Optimized.run_optimized_flow (scripted empty_section) "Elms Bup 10439"
      (boot tt) = (Ok None, m)
    ∧ last (sent m) = Some (GetFeed la lo "ABC123")
    ∧ empty_section (GetFeed la lo "ABC123") = ok feed
    ∧ extract_stores_from_feed feed "Now on DoorDash" = Ok []
    ∧ console m = before ++
        [Banner "Step 15: Content Feed";
         Cross "No stores found in 'Now on DoorDash' feed"].
Proof.
  pose (run := Optimized.run_optimized_flow (scripted empty_section)
                 "Elms Bup 10439" (boot tt)).
  exists run.2, (take 9 (console run.2)),
    (JFloat (S754_finite false 163 (-2))), (JFloat (S754_finite true 147 (-1))),
    (JObj [("items", JArr [])]).
  repeat match goal with |- _ ∧ _ => split end; vm_compute; reflexivity.
Qed.

(** C7 (amended): a run of the flow that raises nothing returns either a
    list of records that is not empty, each with its name, or [None]; it
    never returns the empty list: a fetched feed without records gives
    [None], like a step that could not complete. *)
Theorem flow_returns_stores_or_none {World}
    (remote : request → World → reply * World) address_query m r m' :
  Optimized.run_optimized_flow remote address_query m = (Ok r, m') →
  ∀ stores, r = Some stores → stores ≠ [] ∧ Forall named stores.
Proof.
  revert m r m'.
  change (ensures (Optimized.run_optimized_flow remote address_query)
            (λ r, ∀ stores, r = Some stores → stores ≠ [] ∧ Forall named stores)).
  unfold Optimized.run_optimized_flow.
  pose proof (from_set_default_stores remote) as Htail.
  ensures_steps; try done.
Qed.

Lemma flow_returns_stores_or_none_witness :
  ∃ stores m,
    Optimized.run_optimized_flow (scripted full_section) "Elms Bup 10439"
      (boot tt) = (Ok (Some stores), m)
    ∧ stores ≠ [] ∧ Forall named stores.
Proof.
  pose (run := Optimized.run_optimized_flow (scripted full_section)
                 "Elms Bup 10439" (boot tt)).
  pose (stores := match run.1 with Ok (Some found) => found | _ => [] end).
  assert (Hrun : Optimized.run_optimized_flow (scripted full_section)
                   "Elms Bup 10439" (boot tt) = (Ok (Some stores), run.2))
    by (vm_compute; reflexivity).
  exists stores, run.2. split; [exact Hrun|].
  exact (flow_returns_stores_or_none (scripted full_section)
           "Elms Bup 10439" (boot tt) _ _ Hrun _ eq_refl).
Defined.

(** ** The fallback cursor *)

(** C8: the token of the default cursor decodes to the cursor it was made
    from; in particular the offset, the content identifiers and the three
    members of [baseCursor] come back unchanged. *)
Theorem default_cursor_round_trip :
  ∃ token decoded base,
    encode_cursor default_cursor = Ok token
    ∧ decode_cursor token = Ok decoded
    ∧ decoded = default_cursor
    ∧ py_getitem decoded "offset" = Ok (JInt 0)
    ∧ py_getitem decoded "content_ids"
      = Ok (JArr [JStr "10821511"; JStr "27460306"; JStr "33917167"])
    ∧ py_getitem decoded "baseCursor" = Ok base
    ∧ py_getitem base "page_id" = Ok (JStr "eta")
    ∧ py_getitem base "page_type" = Ok (JStr "STORE_CAROUSEL_LANDING")
    ∧ py_getitem base "cursor_version" = Ok (JStr "FACET").
Proof.
  exists (match encode_cursor default_cursor with Ok t => t | Raise _ => "" end),
    default_cursor,
    (JObj [("page_id", JStr "eta"); ("page_type", JStr "STORE_CAROUSEL_LANDING");
           ("cursor_version", JStr "FACET")]).
  repeat match goal with |- _ ∧ _ => split end; vm_compute; reflexivity.
Qed.

(** ** More on the section-cursor search *)

Lemma search_sound doc : ∀ c,
  search_for_now_on_doordash doc = Ok (Some c) →
  ∃ node, node ∈ mapping_nodes doc ∧ section_token node = Some c.
Proof.
  induction doc as [| | | | |xs IH|kvs IH] using json_tree_ind; try done.
  - intros c. rewrite search_arr, mapping_nodes_arr.
    induction IH as [|x xs Hx _ IHxs]; cbn; [done|]. unfold_bind.
    destruct (search_for_now_on_doordash x) as [r|] eqn:E; [|done].
    destruct (found r) eqn:Ef.
    + intros [= ->]. destruct (Hx c eq_refl) as (node & Hin & Ht).
      exists node. split; [|done]. apply elem_of_app. by left.
    + intros (node & Hin & Ht)%IHxs. exists node. split; [|done].
      apply elem_of_app. by right.
  - intros c. rewrite search_obj, mapping_nodes_obj. unfold_bind.
    destruct (node_cursor kvs) as [[here|]|] eqn:E; [| |done].
    + intros [= ->]. exists kvs. split; [by left|].
      symmetry. by apply node_cursor_sound.
    + intros Hs. enough (∃ node, node ∈ nodes_of_values kvs
                                 ∧ section_token node = Some c) as (n & ? & ?).
      { exists n. split; [by right|done]. }
      clear E. induction IH as [|[k v] kvs Hv _ IHkvs]; cbn in *; [done|].
      destruct (is_container v).
      * unfold_bind.
        destruct (search_for_now_on_doordash v) as [r|] eqn:E; [|done].
        destruct (found r) eqn:Ef.
        -- injection Hs as ->. destruct (Hv c eq_refl) as (node & Hin & Ht).
           exists node. split; [|done]. apply elem_of_app. by left.
        -- destruct (IHkvs Hs) as (node & Hin & Ht). exists node.
           split; [|done]. apply elem_of_app. by right.
      * destruct (IHkvs Hs) as (node & Hin & Ht). exists node.
        split; [|done]. apply elem_of_app. by right.
Qed.



#[local] Opaque contains lower strip startswith dict_get drop_chars
  ends_with_slash drop_last.

Lemma node_cursor_raises node e :
  node_cursor node = Raise e → lookup_error e.
Proof.
  unfold node_cursor, py_strip, py_in, py_getitem, py_get, py_startswith,
    dict_has, lookup_error.
  unfold_bind. simpl. intros H.
  repeat (case_match; simplify_eq/=; try done); auto.
Qed.

#[local] Transparent contains lower strip startswith dict_get drop_chars
  ends_with_slash drop_last.

Lemma search_raises doc : ∀ e,
  search_for_now_on_doordash doc = Raise e → lookup_error e.
Proof.
  induction doc as [| | | | |xs IH|kvs IH] using json_tree_ind; try done.
  - intros e. rewrite search_arr.
    induction IH as [|x xs Hx _ IHxs]; cbn; [done|]. unfold_bind.
    destruct (search_for_now_on_doordash x) as [r|e'] eqn:E.
    + destruct (found r); [done|apply IHxs].
    + intros [= <-]. by apply Hx.
  - intros e. rewrite search_obj. unfold_bind.
    destruct (node_cursor kvs) as [[here|]|e'] eqn:E; [done| |].
    + clear E. induction IH as [|[k v] kvs Hv _ IHkvs]; cbn; [done|].
      destruct (is_container v); [|apply IHkvs]. unfold_bind.
      destruct (search_for_now_on_doordash v) as [r|e'] eqn:E.
      * destruct (found r); [done|apply IHkvs].
      * intros [= <-]. by apply Hv.
    + intros [= <-]. by eapply node_cursor_raises.
Qed.

Lemma find_raises_lookup doc e :
  find_now_on_doordash_cursor doc = Raise e → lookup_error e.
Proof.
  unfold find_now_on_doordash_cursor. unfold_bind.
  destruct (search_for_now_on_doordash doc) as [r|e'] eqn:E.
  - by destruct (found r).
  - intros [= <-]. by eapply search_raises.
Qed.



(** ** More on the store extraction *)

Lemma ends_with_slash_app t : ends_with_slash (t +:+ "/") = true.
Proof.
  induction t as [|c t IH]; [done|].
  change (String c t +:+ "/") with (String c (t +:+ "/")).
  destruct t; [done|]. exact IH.
Qed.

Lemma drop_last_app t : drop_last (t +:+ "/") = t.
Proof.
  induction t as [|c t IH]; [done|].
  change (String c t +:+ "/") with (String c (t +:+ "/")).
  destruct t as [|a t]; [done|].
  change (drop_last (String c (String a t +:+ "/")))
    with (String c (drop_last (String a t +:+ "/"))).
  by rewrite IH.
Qed.



(** Any property of the records that [visit] appends is kept by the
    traversal. *)
Lemma extract_store_info_invariant (P : store_info → Prop) source_name :
  (∀ item path info,
     assemble item = Ok info → has_store_name info = true →
     P (set_origin info source_name path)) →
  ∀ item path stores stores',
    extract_store_info source_name item path stores = Ok stores' →
    Forall P stores → Forall P stores'.
Proof.
  intros HP.
  assert (Hvisit : ∀ item path stores stores',
            visit source_name item path stores = Ok stores' →
            Forall P stores → Forall P stores').
  { intros item path stores stores'. unfold visit. unfold_bind.
    destruct (assemble item) as [info|] eqn:Ea; [|done].
    destruct (has_store_name info) eqn:E; intros [= <-] H; [|done].
    apply Forall_app. split; [done|]. apply Forall_singleton. by eapply HP. }
  induction item as [| | | | |xs IH|kvs IH] using json_tree_ind;
    try (by intros ??? [= <-]).
  - intros path stores stores'. rewrite extract_arr. generalize 0%nat.
    revert stores. induction IH as [|x xs Hx _ IHxs]; intros stores i; simpl.
    + by intros [= <-].
    + unfold_bind.
      destruct (extract_store_info source_name x _ stores) as [mid|] eqn:E;
        [|done].
      intros Hrest Hst. eapply IHxs; [exact Hrest|]. by eapply Hx.
  - intros path stores stores'. rewrite extract_obj. unfold_bind.
    destruct (visit source_name kvs path stores) as [mid|] eqn:Ev; [|done].
    intros Hitems Hst. apply (Hvisit _ _ _ _ Ev) in Hst.
    clear Ev stores. revert mid Hitems Hst.
    induction IH as [|[k v] kvs Hv _ IHkvs]; intros stores; simpl.
    + by intros [= <-].
    + destruct (is_container v); [|by apply IHkvs].
      unfold_bind.
      destruct (extract_store_info source_name v _ stores) as [mid|] eqn:E;
        [|done].
      intros Hrest Hst. eapply IHkvs; [exact Hrest|]. by eapply Hv.
Qed.

Lemma extraction_invariant (P : store_info → Prop) source_name :
  (∀ item path info,
     assemble item = Ok info → has_store_name info = true →
     P (set_origin info source_name path)) →
  ∀ feed_data unique_stores,
    extract_stores_from_feed feed_data source_name = Ok unique_stores →
    Forall P unique_stores.
Proof.
  intros HP feed_data unique_stores. unfold extract_stores_from_feed.
  unfold_bind.
  destruct (extract_store_info source_name feed_data "" []) as [stores|] eqn:Hx;
    [|done].
  intros [= <-]. rewrite remove_duplicates_first_occurrences.
  pose proof (extract_store_info_invariant P source_name HP _ _ _ _ Hx
                (Forall_nil_2 _)) as Hall.
  rewrite Forall_forall in Hall |- *. intros r Hr. apply Hall.
  eapply elem_of_sublist; [exact Hr|apply first_occurrences_sublist].
Qed.

Lemma lstrip_idemp s : lstrip (lstrip s) = lstrip s.
Proof.
  induction s as [|c s IH]; [done|]. cbn. destruct (is_space c) eqn:E; [done|].
  cbn. by rewrite E.
Qed.

Lemma rstrip_cons c s :
  rstrip (String c s) =
  match rstrip s with
  | "" => if is_space c then "" else String c ""
  | r => String c r
  end.
Proof. reflexivity. Qed.

Lemma rstrip_idemp s : rstrip (rstrip s) = rstrip s.
Proof.
  induction s as [|c s IH]; [done|]. rewrite (rstrip_cons c s).
  destruct (rstrip s) as [|c' r] eqn:E.
  - destruct (is_space c) eqn:Ec; [done|]. cbn. by rewrite Ec.
  - by rewrite rstrip_cons, IH.
Qed.

Lemma rstrip_head c s :
  is_space c = false → ∃ r, rstrip (String c s) = String c r.
Proof.
  intros Ec. cbn. destruct (rstrip s); [|by eexists].
  rewrite Ec. by eexists.
Qed.

Lemma strip_swap s : rstrip (lstrip s) = lstrip (rstrip s).
Proof.
  induction s as [|c s IH]; [done|]. destruct (is_space c) eqn:Ec.
  - cbn [lstrip]. rewrite Ec, IH. cbn [rstrip].
    destruct (rstrip s) as [|c' r] eqn:E; cbn; by rewrite Ec.
  - cbn [lstrip]. rewrite Ec.
    destruct (rstrip_head c s Ec) as [r ->]. cbn. by rewrite Ec.
Qed.

Lemma strip_idemp s : strip (strip s) = strip s.
Proof.
  unfold strip. by rewrite strip_swap, lstrip_idemp, rstrip_idemp.
Qed.

Lemma set_origin_fields info s p :
  name (set_origin info s p) = name info
  ∧ subtitle (set_origin info s p) = subtitle info
  ∧ rating (set_origin info s p) = rating info
  ∧ delivery_fee (set_origin info s p) = delivery_fee info
  ∧ delivery_time (set_origin info s p) = delivery_time info
  ∧ store_id (set_origin info s p) = store_id info
  ∧ uri (set_origin info s p) = uri info.
Proof. done. Qed.

Lemma basic_info_trimmed item info :
  basic_info item empty_info = Ok info →
  (name info = None ∧ subtitle info = None
   ∨ ∃ n, name info = Some n ∧ strip n = n ∧ is_Some (subtitle info))
  ∧ rating info = None ∧ delivery_fee info = None ∧ delivery_time info = None
  ∧ store_id info = None ∧ uri info = None.
Proof.
  unfold basic_info.
  destruct (dict_get item "text") as [[| | | | | |text_data]|];
    try (intros [= <-]; split; [by left|done]).
  unfold_bind.
  destruct (default (JStr "") (dict_get text_data "title")) as [| | | |t| |];
    try done.
  destruct (default (JStr "") (dict_get text_data "subtitle")) as [| | | |u| |];
    try done.
  cbn. intros [= <-]. split; [|done]. right. exists (strip t).
  split; [done|]. split; [apply strip_idemp|by eexists].
Qed.

Lemma custom_info_fields item info :
  name (custom_info item info) = name info
  ∧ subtitle (custom_info item info) = subtitle info
  ∧ store_id (custom_info item info) = store_id info
  ∧ uri (custom_info item info) = uri info
  ∧ (rating info = None → delivery_fee info = None →
     delivery_time info = None →
     (is_Some (rating (custom_info item info))
      ↔ is_Some (delivery_fee (custom_info item info)))
     ∧ (is_Some (rating (custom_info item info))
        ↔ is_Some (delivery_time (custom_info item info)))).
Proof.
  unfold custom_info.
  destruct (dict_get item "custom") as [[| | | | | |custom_data]|]; cbn;
    do 4 (split; [done|]); intros Hr Hf Ht; rewrite ?Hr, ?Hf, ?Ht;
    split; split; intros ?; try done; by eexists.
Qed.

Lemma click_info_fields item info info' :
  click_info item info = Ok info' →
  name info' = name info ∧ subtitle info' = subtitle info
  ∧ rating info' = rating info ∧ delivery_fee info' = delivery_fee info
  ∧ delivery_time info' = delivery_time info
  ∧ (store_id info = None → uri info = None →
     (is_Some (store_id info') ↔ is_Some (uri info'))).
Proof.
  assert (Hsame : name info = name info ∧ subtitle info = subtitle info
            ∧ rating info = rating info ∧ delivery_fee info = delivery_fee info
            ∧ delivery_time info = delivery_time info
            ∧ (store_id info = None → uri info = None →
               (is_Some (store_id info) ↔ is_Some (uri info)))).
  { do 5 (split; [done|]). by intros -> ->. }
  unfold click_info.
  destruct (dict_get item "events") as [events|]; [|by intros [= <-]].
  unfold_bind.
  destruct (py_in "click" events) as [[|]|]; try done; [|by intros [= <-]].
  destruct (py_getitem events "click") as [click|]; [|done].
  destruct (py_get click "data" (JObj [])) as [click_data|]; [|done].
  destruct (py_get click_data "store_id" JNull) as [sid|]; [|done].
  destruct (py_get click_data "uri" JNull) as [u|]; [|done].
  intros [= <-]. cbn. do 5 (split; [done|]). intros _ _.
  split; intros _; by eexists.
Qed.

Lemma assemble_shape item info :
  assemble item = Ok info →
  (name info = None
   ∨ ∃ n, name info = Some n ∧ strip n = n ∧ is_Some (subtitle info))
  ∧ blockwise info.
Proof.
  unfold assemble. unfold_bind.
  destruct (basic_info item empty_info) as [basic|] eqn:Eb; [|done].
  apply basic_info_trimmed in Eb as (Hname & Hr & Hf & Ht & Hs & Hu).
  intros Hc.
  destruct (custom_info_fields item basic) as (Cn & Cs & Ci & Cu & Cblock).
  apply click_info_fields in Hc as (Kn & Ks & Kr & Kf & Kt & Kblock).
  destruct (Cblock Hr Hf Ht) as [B1 B2].
  split.
  - rewrite Kn, Cn, Ks, Cs. destruct Hname as [[-> _]|?]; [by left|by right].
  - unfold blockwise. rewrite Kr, Kf, Kt. split; [done|]. split; [done|].
    apply Kblock; congruence.
Qed.



Lemma visit_length source_name item path stores stores' :
  visit source_name item path stores = Ok stores' →
  (length stores' ≤ S (length stores))%nat.
Proof.
  unfold visit. unfold_bind. destruct (assemble item) as [info|]; [|done].
  destruct (has_store_name info); intros [= <-]; [|lia].
  rewrite length_app. cbn. lia.
Qed.

Lemma extract_store_info_length source_name item :
  ∀ path stores stores',
    extract_store_info source_name item path stores = Ok stores' →
    (length stores' ≤ length stores + length (mapping_nodes item))%nat.
Proof.
  induction item as [| | | | |xs IH|kvs IH] using json_tree_ind;
    try (intros ??? [= <-]; cbn; lia).
  - intros path stores stores'. rewrite extract_arr, mapping_nodes_arr.
    generalize 0%nat. revert stores.
    induction IH as [|x xs Hx _ IHxs]; intros stores i; cbn.
    + intros [= <-]. lia.
    + unfold_bind.
      destruct (extract_store_info source_name x _ stores) as [mid|] eqn:E;
        [|done].
      intros Hrest%IHxs. apply Hx in E. rewrite length_app. lia.
  - intros path stores stores'. rewrite extract_obj, mapping_nodes_obj.
    unfold_bind.
    destruct (visit source_name kvs path stores) as [mid|] eqn:Ev; [|done].
    apply visit_length in Ev. intros Hitems. cbn [length].
    enough (length stores' ≤ length mid + length (nodes_of_values kvs))%nat by lia.
    clear Ev stores. revert mid Hitems.
    induction IH as [|[k v] kvs Hv _ IHkvs]; intros stores; cbn.
    + intros [= <-]. lia.
    + rewrite length_app. destruct (is_container v).
      * unfold_bind.
        destruct (extract_store_info source_name v _ stores) as [mid|] eqn:E;
          [|done].
        intros Hrest%IHkvs. apply Hv in E. cbn in E. lia.
      * intros Hrest%IHkvs. lia.
Qed.



Lemma first_occurrences_fixed stores : ∀ seen,
  NoDup (name_key <$> stores) →
  Forall (λ s, (name_key s ∉ seen) ∧ nonempty (name_key s) = true) stores →
  first_occurrences seen stores = stores.
Proof.
  induction stores as [|s stores IH]; intros seen; [done|].
  rewrite fmap_cons, NoDup_cons, Forall_cons.
  intros [Hs Hnd] [[Hfresh Hne] Hall]. cbn.
  rewrite Hne, bool_decide_true by done. cbn. f_equal.
  apply IH; [done|]. rewrite Forall_forall in Hall |- *.
  intros x Hx. destruct (Hall x Hx) as [Hx1 Hx2]. split; [|done].
  apply not_elem_of_union. split; [|done]. rewrite elem_of_singleton.
  intros Heq. apply Hs. rewrite <- Heq. by apply list_elem_of_fmap_2.
Qed.


Lemma assemble_raises item e : assemble item = Raise e → lookup_error e.
Proof.
  unfold assemble, basic_info, click_info, py_strip, py_in, py_getitem,
    py_get, dict_has, lookup_error.
  unfold_bind. intros H.
  repeat (case_match; simplify_eq; try done); auto.
Qed.

Lemma extract_store_info_raises source_name item :
  ∀ path stores e,
    extract_store_info source_name item path stores = Raise e →
    lookup_error e.
Proof.
  assert (Hvisit : ∀ item path stores e,
            visit source_name item path stores = Raise e → lookup_error e).
  { intros it path stores e. unfold visit. unfold_bind.
    destruct (assemble it) as [info|e'] eqn:E.
    - by destruct (has_store_name info).
    - intros [= <-]. by eapply assemble_raises. }
  induction item as [| | | | |xs IH|kvs IH] using json_tree_ind; try done.
  - intros path stores e. rewrite extract_arr. generalize 0%nat. revert stores.
    induction IH as [|x xs Hx _ IHxs]; intros stores i; cbn; [done|].
    unfold_bind.
    destruct (extract_store_info source_name x _ stores) as [mid|e'] eqn:E.
    + apply IHxs.
    + intros [= <-]. by eapply Hx.
  - intros path stores e. rewrite extract_obj. unfold_bind.
    destruct (visit source_name kvs path stores) as [mid|e'] eqn:Ev.
    + clear Ev stores. revert mid.
      induction IH as [|[k v] kvs Hv _ IHkvs]; intros stores; cbn; [done|].
      destruct (is_container v); [|apply IHkvs]. unfold_bind.
      destruct (extract_store_info source_name v _ stores) as [mid|e'] eqn:E.
      * apply IHkvs.
      * intros [= <-]. by eapply Hv.
    + intros [= <-]. by eapply Hvisit.
Qed.

Lemma extraction_raises_lookup feed_data source_name e :
  extract_stores_from_feed feed_data source_name = Raise e → lookup_error e.
Proof.
  unfold extract_stores_from_feed. unfold_bind.
  destruct (extract_store_info source_name feed_data "" []) as [stores|e'] eqn:Hx;
    [done|].
  intros [= <-]. by eapply extract_store_info_raises.
Qed.



(** ** More on the flows *)

Section More_observations.
Context {World : Type}.
Implicit Types (m : machine World).

Lemma modelled_ret {A} (a : A) : modelled (mret a : M World A).
Proof. by intros m. Qed.

Lemma modelled_say (l : line) : modelled (say l : M World unit).
Proof. by intros m. Qed.

Lemma modelled_attr f : modelled (attr f : M World json).
Proof. by intros m. Qed.

Lemma modelled_assign f : modelled (assign f : M World unit).
Proof. by intros m. Qed.

Lemma modelled_send remote r : modelled (send remote r : M World response).
Proof.
  intros m. unfold send. by destruct (remote r (world m)) as [[resp|msg] w].
Qed.

Lemma modelled_lift {A} (r : result A) :
  r ≠ Raise Unmodelled → modelled (lift r : M World A).
Proof. by intros Hr m. Qed.

Lemma modelled_bind {A B} (c : M World A) (k : A → M World B) :
  modelled c → (∀ a, modelled (k a)) → modelled (c ≫= k).
Proof.
  intros Hc Hk m. unfold mbind, M_bind. specialize (Hc m).
  destruct (c m) as [[a|e] m1]; cbn in *; [apply Hk|].
  intros [= ->]. by apply Hc.
Qed.

Lemma modelled_try {A} (body : M World A) handler :
  modelled body → (∀ e, modelled (handler e)) →
  modelled (try_except body handler).
Proof.
  intros Hb Hh m. unfold try_except. specialize (Hb m).
  destruct (body m) as [[a|e] m1]; cbn in *; [done|].
  destruct e; try apply Hh. done.
Qed.

Lemma total_modelled {A} (c : M World A) : total c → modelled c.
Proof. intros Hc m. by destruct (Hc m) as (a & m' & ->). Qed.

Lemma total_or_else {A} (body : M World A) (r : A) :
  modelled body → total (or_else body r).
Proof.
  intros Hb. apply total_try; [exact Hb|]. intros e.
  apply total_bind; [apply total_say|]. intros _. apply total_ret.
Qed.

Lemma raises_only_total {A} P (c : M World A) : total c → raises_only P c.
Proof. intros Hc m e m' H. destruct (Hc m) as (a & m1 & H1). congruence. Qed.

Lemma raises_only_lift {A} (P : exn → Prop) (r : result A) :
  (∀ e, r = Raise e → P e) → raises_only P (lift r : M World A).
Proof. intros Hr m e m' [= -> _]. by apply Hr. Qed.

Lemma raises_only_bind {A B} P (c : M World A) (k : A → M World B) :
  raises_only P c → (∀ a, raises_only P (k a)) → raises_only P (c ≫= k).
Proof.
  intros Hc Hk m e m'. unfold mbind, M_bind.
  destruct (c m) as [[a|e1] m1] eqn:E.
  - apply Hk.
  - intros [= <- _]. by eapply Hc.
Qed.
End More_observations.

Lemma py_in_modelled k v : py_in k v ≠ Raise Unmodelled.
Proof. by destruct v. Qed.

Lemma py_getitem_modelled v k : py_getitem v k ≠ Raise Unmodelled.
Proof. destruct v; try done. cbn. by destruct (dict_get kvs k). Qed.

Lemma py_get_modelled v k d : py_get v k d ≠ Raise Unmodelled.
Proof. destruct v; try done. cbn. by destruct (dict_get kvs k). Qed.

Lemma py_len_modelled v : py_len v ≠ Raise Unmodelled.
Proof. by destruct v. Qed.

Lemma py_first_modelled v : py_first v ≠ Raise Unmodelled.
Proof.
  destruct v as [| | | |s|xs|]; try done; cbn.
  - destruct s; [done|]. intros [=].
  - destruct xs; [done|]. intros [=].
Qed.

Lemma py_keys_modelled v : py_keys v ≠ Raise Unmodelled.
Proof. by destruct v. Qed.

Lemma json_of_modelled r : json_of r ≠ Raise Unmodelled.
Proof. unfold json_of. by destruct (body r). Qed.

Lemma has_nested_modelled v a b : has_nested v a b ≠ Raise Unmodelled.
Proof.
  unfold has_nested. unfold_bind.
  destruct (py_in a v) as [[|]|e] eqn:E; [|done|].
  - destruct (py_getitem v a) as [inner|e] eqn:E2.
    + apply py_in_modelled.
    + intros [= ->]. by eapply py_getitem_modelled.
  - intros [= ->]. by eapply py_in_modelled.
Qed.

Lemma default_cursor_encodes : ∃ token, encode_cursor default_cursor = Ok token.
Proof. eexists. vm_compute. reflexivity. Qed.

#[export] Hint Resolve modelled_ret modelled_say modelled_attr modelled_assign
  modelled_send py_in_modelled py_getitem_modelled py_get_modelled
  py_len_modelled py_first_modelled py_keys_modelled json_of_modelled
  has_nested_modelled : flow.

(** Breaks a computation down to the primitives, for [modelled]. *)
Ltac modelled_steps :=
  repeat lazymatch goal with
    | |- modelled (mbind _ _) => apply modelled_bind; [|intros ?]
    | |- modelled (try_except _ _) => apply modelled_try; [|intros ?]
    | |- modelled (lift _) => apply modelled_lift; solve [eauto with flow]
    | |- modelled (if ?b then _ else _) => destruct b
    | |- modelled (match ?x with _ => _ end) => destruct x
    | |- modelled _ => solve [eauto with flow]
    end.

(** A step of the shape banner, guards, protected block. *)
Ltac total_steps :=
  repeat lazymatch goal with
    | |- total (mbind _ _) => apply total_bind; [|intros ?]
    | |- total (or_else _ _) =>
        apply total_or_else; unfold status_is_200; modelled_steps
    | |- total (if ?b then _ else _) => destruct b
    | |- total (match ?x with _ => _ end) => destruct x
    | |- total _ => solve [eauto with flow]
    end.

Section Optimized_total.
Context {World : Type} (remote : request → World → reply * World).

Lemma step_1_total : total (Optimized.step_1_health_check remote).
Proof.
  unfold Optimized.step_1_health_check.
  apply total_bind; [apply total_say|]. intros _.
  apply total_try.
  - change (modelled (status_is_200 remote GetStatusOk)).
    unfold status_is_200. modelled_steps.
  - intros e. total_steps.
Qed.

Lemma step_2_total : total (Optimized.step_2_create_guest remote).
Proof. unfold Optimized.step_2_create_guest, set_jwt_token. total_steps. Qed.

Lemma step_8_total : total (Optimized.step_8_get_addresses remote).
Proof. unfold Optimized.step_8_get_addresses. total_steps. Qed.

Lemma step_9_total q : total (Optimized.step_9_address_autocomplete remote q).
Proof. unfold Optimized.step_9_address_autocomplete. total_steps. Qed.

Lemma step_10_total p : total (Optimized.step_10_address_details remote p).
Proof.
  unfold Optimized.step_10_address_details, set_lat, set_lng. total_steps.
Qed.

Lemma step_11_total p : total (Optimized.step_11_validate_address remote p).
Proof. unfold Optimized.step_11_validate_address. total_steps. Qed.

Lemma step_12_total p : total (Optimized.step_12_add_address remote p).
Proof. unfold Optimized.step_12_add_address, set_address_id. total_steps. Qed.

Lemma step_14_total : total (Optimized.step_14_homepage_feed remote).
Proof. unfold Optimized.step_14_homepage_feed. total_steps. Qed.

Lemma step_15_total cursor_id :
  total (Optimized.step_15_content_feed remote cursor_id).
Proof.
  unfold Optimized.step_15_content_feed.
  destruct default_cursor_encodes as [token Htoken]. rewrite Htoken.
  total_steps. all: intros m; by eexists _, _.
Qed.
End Optimized_total.


Section Optimized_raises.
Context {World : Type} (remote : request → World → reply * World).

Lemma find_cursor_raises doc :
  raises_only lookup_error (Optimized.find_cursor (World:=World) doc).
Proof.
  unfold Optimized.find_cursor. apply raises_only_bind.
  - apply raises_only_lift. intros e. apply find_raises_lookup.
  - intros c. apply raises_only_total. destruct (found c).
    + apply total_ret.
    + apply total_bind; [apply total_say|]. intros _. apply total_ret.
Qed.

Lemma stores_raises feed label (k : list store_info → M World (option (list store_info))) :
  (∀ stores, total (k stores)) →
  raises_only lookup_error (lift (extract_stores_from_feed feed label) ≫= k).
Proof.
  intros Hk. apply raises_only_bind.
  - apply raises_only_lift. intros e. apply extraction_raises_lookup.
  - intros stores. by apply raises_only_total.
Qed.

Lemma from_set_default_raises :
  raises_only lookup_error (Optimized.from_set_default remote).
Proof.
  unfold Optimized.from_set_default.
  apply raises_only_bind; [apply raises_only_total, step_13_total|].
  intros b. apply raises_only_bind.
  { apply raises_only_total. destruct (negb b); [apply total_say|apply total_ret]. }
  intros _. apply raises_only_bind; [apply raises_only_total, step_14_total|].
  intros homepage. destruct (negb (truthy homepage)).
  { apply raises_only_total. apply total_bind; [apply total_say|].
    intros _. apply total_ret. }
  apply raises_only_bind; [apply find_cursor_raises|]. intros c.
  destruct (found c).
  - apply raises_only_bind; [apply raises_only_total, step_15_total|].
    intros feed. destruct (truthy feed).
    + apply stores_raises. intros stores. destruct (Optimized.some_stores stores).
      * apply total_ret.
      * apply total_bind; [apply total_say|]. intros _. apply total_ret.
    + apply raises_only_total. apply total_bind; [apply total_say|].
      intros _. apply total_ret.
  - apply raises_only_bind; [apply raises_only_total, total_say|]. intros _.
    apply raises_only_bind; [apply raises_only_total, total_say|]. intros _.
    apply raises_only_bind; [apply raises_only_total, step_15_total|].
    intros feed. destruct (truthy feed); [|apply raises_only_total, total_ret].
    apply stores_raises. intros stores.
    destruct (Optimized.some_stores stores); apply total_ret.
Qed.

Lemma abort_total {A} (l : line) (a : A) : total (say l;; mret a : M World A).
Proof. apply total_bind; [apply total_say|]. intros _. apply total_ret. Qed.
End Optimized_raises.



Section Guest_total.
Context {World : Type} (remote : request → World → reply * World).

Lemma guest_step_1_total : total (Guest.step_1_health_check remote).
Proof. unfold Guest.step_1_health_check. total_steps. Qed.

Lemma guest_step_2_total : total (Guest.step_2_create_guest_user remote).
Proof. unfold Guest.step_2_create_guest_user, set_jwt_token. total_steps. Qed.

Lemma guest_status_step_total (l : line) r :
  total (say l;; or_else (status_is_200 remote r) false).
Proof. total_steps. Qed.

Lemma guest_step_9_total q : total (Guest.step_9_address_autocomplete remote q).
Proof. unfold Guest.step_9_address_autocomplete. total_steps. Qed.

Lemma guest_step_10_total p :
  total (Guest.step_10_get_address_details remote p).
Proof.
  unfold Guest.step_10_get_address_details, set_lat, set_lng. total_steps.
Qed.

Lemma guest_step_12_total p : total (Guest.step_12_add_address remote p).
Proof. unfold Guest.step_12_add_address, set_address_id. total_steps. Qed.

Lemma guest_step_13_total : total (Guest.step_13_set_default_address remote).
Proof. unfold Guest.step_13_set_default_address. total_steps. Qed.

Lemma guest_step_14_total : total (Guest.step_14_homepage_feed remote).
Proof. unfold Guest.step_14_homepage_feed. total_steps. Qed.

Lemma guest_step_15_total : total (Guest.step_15_content_feed remote None).
Proof.
  unfold Guest.step_15_content_feed. cbn [Guest.long_cursor found andb].
  destruct default_cursor_encodes as [token Htoken]. rewrite Htoken.
  total_steps. all: intros m; by eexists _, _.
Qed.

Lemma guest_from_set_default_total : total (Guest.from_set_default remote).
Proof.
  unfold Guest.from_set_default.
  pose proof guest_step_13_total. pose proof guest_step_14_total.
  pose proof guest_step_15_total. total_steps.
Qed.
End Guest_total.


Section Optimized_guards.
Context {World : Type} (remote : request → World → reply * World).

Lemma step_14_without_coordinates m :
  truthy (lat (self m)) = false ∨ truthy (lng (self m)) = false →
  ∃ m', Optimized.step_14_homepage_feed remote m = (Ok JNull, m')
        ∧ untouched m m'.
Proof.
  intros H. unfold Optimized.step_14_homepage_feed. run.
  assert (negb (truthy (lat (self m))) || negb (truthy (lng (self m))) = true)
    as -> by (destruct H as [-> | ->]; [done|apply orb_true_r]).
  by eexists.
Qed.

Lemma step_15_without_coordinates cursor_id m :
  truthy (lat (self m)) = false ∨ truthy (lng (self m)) = false →
  ∃ m', Optimized.step_15_content_feed remote cursor_id m = (Ok JNull, m')
        ∧ untouched m m'.
Proof.
  intros H. unfold Optimized.step_15_content_feed. run.
  assert (negb (truthy (lat (self m))) || negb (truthy (lng (self m))) = true)
    as -> by (destruct H as [-> | ->]; [done|apply orb_true_r]).
  by eexists.
Qed.

Lemma step_10_accepts p m r w data la lo :
  truthy (jwt_token (self m)) = true →
  remote (GetAddressDetails p) (world m) = (Answer r, w) →
  status_code r = 200%Z → body r = Some (JObj data) →
  dict_get data "lat" = Some la → dict_get data "lng" = Some lo →
  la ≠ JNull → lo ≠ JNull →
  ∃ m', Optimized.step_10_address_details remote p m = (Ok true, m')
        ∧ lat (self m') = la ∧ lng (self m') = lo
        ∧ jwt_token (self m') = jwt_token (self m).
Proof.
  intros Hj Hr Hs Hb Hla Hlo Hn1 Hn2.
  unfold Optimized.step_10_address_details. run. rewrite Hj. cbn.
  rewrite Hr. unfold is_200, json_of. rewrite Hs, Hb. cbn.
  rewrite Hla, Hlo. cbn.
  assert (Optimized.is_none la = false) as -> by (by destruct la).
  assert (Optimized.is_none lo = false) as -> by (by destruct lo).
  cbn. destruct (dict_get data "printable_address"); by eexists.
Qed.
End Optimized_guards.







(** The place identifier the autocomplete step takes from a suggestion. *)
Lemma place_of_first {World} (remote : request → World → reply * World)
    q m r w x rest :
  truthy (jwt_token (self m)) = true →
  remote (GetAutocomplete q) (world m) = (Answer r, w) →
  status_code r = 200%Z → body r = Some (JArr (x :: rest)) →
  (Optimized.step_9_address_autocomplete remote q m).1 =
  Ok match py_get x "google_place_id" JNull with
     | Ok place_id => if truthy place_id then place_id else JNull
     | Raise _ => JNull
     end.
Proof.
  intros Hj Hr Hs Hb. unfold Optimized.step_9_address_autocomplete. run.
  rewrite Hj. cbn. rewrite Hr. unfold is_200, json_of. rewrite Hs, Hb. cbn.
  destruct (py_get x "google_place_id" JNull) as [place|e] eqn:E; cbn.
  - by destruct (truthy place).
  - destruct e; try done. by apply py_get_modelled in E.
Qed.







Section Counting.
Context {World : Type}.
Implicit Types (m : machine World).

Lemma sends_ret {A} n (a : A) : sends_at_most n (mret a : M World A).
Proof. intros m. cbn. lia. Qed.

Lemma sends_say n (l : line) : sends_at_most n (say l : M World unit).
Proof. intros m. cbn. lia. Qed.

Lemma sends_attr n f : sends_at_most n (attr f : M World json).
Proof. intros m. cbn. lia. Qed.

Lemma sends_assign n f : sends_at_most n (assign f : M World unit).
Proof. intros m. cbn. lia. Qed.

Lemma sends_lift {A} n (r : result A) : sends_at_most n (lift r : M World A).
Proof. intros m. cbn. lia. Qed.

Lemma sends_send remote n r :
  sends_at_most (S n) (send remote r : M World response).
Proof.
  intros m. unfold send.
  destruct (remote r (world m)) as [[resp|msg] w]; cbn;
    rewrite length_app; cbn; lia.
Qed.

Lemma sends_bind {A B} n1 n2 (c : M World A) (k : A → M World B) :
  sends_at_most n1 c → (∀ a, sends_at_most n2 (k a)) →
  sends_at_most (n1 + n2) (c ≫= k).
Proof.
  intros Hc Hk m. unfold mbind, M_bind. specialize (Hc m).
  destruct (c m) as [[a|e] m1]; cbn in *; [|lia].
  specialize (Hk a m1). lia.
Qed.

Lemma sends_bind_free {A B} n (c : M World A) (k : A → M World B) :
  sends_at_most 0 c → (∀ a, sends_at_most n (k a)) →
  sends_at_most n (c ≫= k).
Proof. apply (sends_bind 0 n). Qed.

Lemma sends_bind_step {A B} n (c : M World A) (k : A → M World B) :
  sends_at_most 1 c → (∀ a, sends_at_most n (k a)) →
  sends_at_most (S n) (c ≫= k).
Proof. apply (sends_bind 1 n). Qed.

Lemma sends_try {A} n (body : M World A) handler :
  sends_at_most n body → (∀ e, sends_at_most 0 (handler e)) →
  sends_at_most n (try_except body handler).
Proof.
  intros Hb Hh m. unfold try_except. specialize (Hb m).
  destruct (body m) as [[a|e] m1]; cbn in *; [done|].
  specialize (Hh e m1). destruct e; cbn in *; lia.
Qed.

Lemma sends_weaken {A} n n' (c : M World A) :
  sends_at_most n c → (n ≤ n')%nat → sends_at_most n' c.
Proof. intros Hc Hle m. specialize (Hc m). lia. Qed.

Lemma keeps_ret {A} f (a : A) : keeps f (mret a : M World A).
Proof. by intros m. Qed.

Lemma keeps_say f (l : line) : keeps f (say l : M World unit).
Proof. by intros m. Qed.

Lemma keeps_attr f g : keeps f (attr g : M World json).
Proof. by intros m. Qed.

Lemma keeps_lift {A} f (r : result A) : keeps f (lift r : M World A).
Proof. by intros m. Qed.

Lemma keeps_send remote f r : keeps f (send remote r : M World response).
Proof.
  intros m. unfold send. by destruct (remote r (world m)) as [[resp|msg] w].
Qed.

Lemma keeps_assign f g :
  (∀ s, f (g s) = f s) → keeps f (assign g : M World unit).
Proof. intros H m. apply H. Qed.

Lemma keeps_bind {A B} f (c : M World A) (k : A → M World B) :
  keeps f c → (∀ a, keeps f (k a)) → keeps f (c ≫= k).
Proof.
  intros Hc Hk m. unfold mbind, M_bind. specialize (Hc m).
  destruct (c m) as [[a|e] m1]; cbn in *; [|done].
  by rewrite (Hk a m1).
Qed.

Lemma keeps_try {A} f (body : M World A) handler :
  keeps f body → (∀ e, keeps f (handler e)) → keeps f (try_except body handler).
Proof.
  intros Hb Hh m. unfold try_except. specialize (Hb m).
  destruct (body m) as [[a|e] m1]; cbn in *; [done|].
  specialize (Hh e m1). destruct e; cbn in *; congruence.
Qed.
End Counting.

#[export] Hint Resolve sends_ret sends_say sends_attr sends_assign sends_lift
  sends_send keeps_ret keeps_say keeps_attr keeps_lift keeps_send : flow.

(** Counts the requests of a block that sends at most once. *)
Ltac sends_steps :=
  repeat lazymatch goal with
    | |- sends_at_most _ (mbind _ (send _ _)) =>
        apply sends_bind_step; [apply sends_send|intros ?]
    | |- sends_at_most _ (mbind _ _) => apply sends_bind_free; [|intros ?]
    | |- sends_at_most _ (try_except _ _) => apply sends_try; [|intros ?]
    | |- sends_at_most _ (if ?b then _ else _) => destruct b
    | |- sends_at_most _ (match ?x with _ => _ end) => destruct x
    | |- sends_at_most _ _ => solve [eauto with flow]
    end.

(** Follows an attribute through a block. *)
Ltac keeps_steps :=
  repeat lazymatch goal with
    | |- keeps _ (mbind _ _) => apply keeps_bind; [|intros ?]
    | |- keeps _ (try_except _ _) => apply keeps_try; [|intros ?]
    | |- keeps _ (assign _) => apply keeps_assign; intros ?; reflexivity
    | |- keeps _ (if ?b then _ else _) => destruct b
    | |- keeps _ (match ?x with _ => _ end) => destruct x
    | |- keeps _ _ => solve [eauto with flow]
    end.

Ltac unfold_steps :=
  unfold Optimized.step_1_health_check, Optimized.step_2_create_guest,
    Optimized.step_8_get_addresses, Optimized.step_9_address_autocomplete,
    Optimized.step_10_address_details, Optimized.step_11_validate_address,
    Optimized.step_12_add_address, Optimized.step_13_set_default_address,
    Optimized.step_14_homepage_feed, Optimized.step_15_content_feed,
    Optimized.find_cursor, or_else, status_is_200,
    set_jwt_token, set_address_id, set_lat, set_lng.

Section Optimized_counting.
Context {World : Type} (remote : request → World → reply * World).

Lemma optimized_steps_send_once :
  sends_at_most 1 (Optimized.step_1_health_check remote)
  ∧ sends_at_most 1 (Optimized.step_2_create_guest remote)
  ∧ sends_at_most 1 (Optimized.step_8_get_addresses remote)
  ∧ (∀ q, sends_at_most 1 (Optimized.step_9_address_autocomplete remote q))
  ∧ (∀ p, sends_at_most 1 (Optimized.step_10_address_details remote p))
  ∧ (∀ p, sends_at_most 1 (Optimized.step_11_validate_address remote p))
  ∧ (∀ p, sends_at_most 1 (Optimized.step_12_add_address remote p))
  ∧ sends_at_most 1 (Optimized.step_13_set_default_address remote)
  ∧ sends_at_most 1 (Optimized.step_14_homepage_feed remote)
  ∧ (∀ c, sends_at_most 1 (Optimized.step_15_content_feed remote c)).
Proof.
  unfold_steps.
  repeat match goal with |- _ ∧ _ => split end; intros; sends_steps.
Qed.

Lemma find_cursor_sends doc n :
  sends_at_most n (Optimized.find_cursor (World:=World) doc).
Proof. unfold Optimized.find_cursor. sends_steps. Qed.

Lemma from_set_default_sends :
  sends_at_most 3 (Optimized.from_set_default remote).
Proof.
  destruct optimized_steps_send_once
    as (_ & _ & _ & _ & _ & _ & _ & H13 & H14 & H15).
  unfold Optimized.from_set_default.
  apply sends_bind_step; [exact H13|]. intros b.
  apply sends_bind_free; [destruct (negb b); eauto with flow|]. intros _.
  apply sends_bind_step; [exact H14|]. intros homepage.
  destruct (negb (truthy homepage)); [sends_steps|].
  apply sends_bind_free; [apply find_cursor_sends|]. intros c.
  destruct (found c).
  - apply sends_bind_step; [apply H15|]. intros feed. sends_steps.
  - apply sends_bind_free; [eauto with flow|]. intros _.
    apply sends_bind_free; [eauto with flow|]. intros _.
    apply sends_bind_step; [apply H15|]. intros feed. sends_steps.
Qed.
End Optimized_counting.



